(** * Backup controller: gather, classify and persist pipeline

    A shallow embedding of [pkg/controllers/backup/controller.go] and the
    properties of its filter resolution, object selection, sanitization
    and placement.

    Layout of the development:
    - [GoString], [filepath], [schema]: the few functions of the Go
      standard library and of apimachinery the controller calls, written
      after their Go sources;
    - [regexp]: a regular expression engine for a fragment of the RE2
      syntax of Go's [regexp], used to run the controller on concrete
      patterns;
    - the data model (untyped objects as nested maps, filters, resource
      descriptors), the in-memory file system standing for package [os],
      and the monad the controller runs in;
    - the controller's functions, in source order;
    - the properties. *)

From stdpp Require Import gmap strings list fin_maps pretty.
From Stdlib Require Import Ascii String ZArith.

Local Set Warnings "-register-all".
Local Open Scope string_scope.
Local Open Scope list_scope.

(** ** Go strings *)

Module GoString.

(** [strings.Index(s, sep)] for a one-byte separator: position of the
    first occurrence, [None] standing for [-1]. *)
Fixpoint IndexByte (s : string) (c : ascii) : option nat :=
  match s with
  | EmptyString => None
  | String a s' =>
      if Ascii.eqb a c then Some 0 else S <$> IndexByte s' c
  end.

(** [strings.Count(s, sep)] for a one-byte separator. *)
Fixpoint CountByte (s : string) (c : ascii) : nat :=
  match s with
  | EmptyString => 0
  | String a s' => (if Ascii.eqb a c then 1 else 0) + CountByte s' c
  end.

(** [s[:i]] and [s[i:]]. *)
Fixpoint take (i : nat) (s : string) : string :=
  match i, s with
  | S i', String a s' => String a (take i' s')
  | _, _ => EmptyString
  end.

Fixpoint drop (i : nat) (s : string) : string :=
  match i, s with
  | S i', String _ s' => drop i' s'
  | _, _ => s
  end.

(** [strings.Split(s, sep)] for a one-byte separator. *)
Fixpoint split_go (c : ascii) (cur : string) (s : string) : list string :=
  match s with
  | EmptyString => [String.rev cur]
  | String a s' =>
      if Ascii.eqb a c then String.rev cur :: split_go c EmptyString s'
      else split_go c (String a cur) s'
  end.

Definition Split (s : string) (c : ascii) : list string :=
  split_go c EmptyString s.

(** [strings.Join(elems, sep)]. *)
Definition Join (elems : list string) (sep : string) : string :=
  String.concat sep elems.

(** [strings.TrimRight(s, cutset)] for a one-byte cutset: the string
    without its trailing run of that byte. *)
Fixpoint TrimRight (s : string) (c : ascii) : string :=
  match s with
  | EmptyString => EmptyString
  | String a s' =>
      match TrimRight s' c with
      | EmptyString => if Ascii.eqb a c then EmptyString else String a EmptyString
      | t => String a t
      end
  end.

Definition HasSuffix (s suffix : string) : Prop := ∃ p, s = p +:+ suffix.

End GoString.

(** ** path/filepath (Unix) *)

Module filepath.

Definition slash : ascii := "/"%char.

(** The element stack of [Clean]: [.] and empty elements vanish, [..]
    removes the element before it, is dropped at the root, and is kept
    at the start of a relative path. [acc] is in reverse order. *)
Fixpoint clean_elems (rooted : bool) (acc : list string) (elems : list string)
  : list string :=
  match elems with
  | [] => rev acc
  | e :: elems' =>
      if decide (e = EmptyString ∨ e = ".") then clean_elems rooted acc elems'
      else if decide (e = "..") then
        match acc with
        | a :: acc' =>
            if decide (a = "..") then clean_elems rooted (e :: acc) elems'
            else clean_elems rooted acc' elems'
        | [] =>
            if rooted then clean_elems rooted acc elems'
            else clean_elems rooted (e :: acc) elems'
        end
      else clean_elems rooted (e :: acc) elems'
  end.

(** [filepath.Clean]. *)
Definition Clean (path : string) : string :=
  match path with
  | EmptyString => "."
  | String c _ =>
      let rooted := Ascii.eqb c slash in
      let body := GoString.Join (clean_elems rooted [] (GoString.Split path slash)) "/" in
      if rooted then "/" +:+ body
      else match body with EmptyString => "." | _ => body end
  end.

(** [filepath.Join]: empty elements are ignored, the rest is joined by
    the separator and cleaned; nothing left gives the empty string. *)
Definition Join (elem : list string) : string :=
  match filter (λ e, e ≠ EmptyString) elem with
  | [] => EmptyString
  | es => Clean (GoString.Join es "/")
  end.

(** [filepath.Base]: the last element of the path, after removing
    trailing separators. *)
Definition Base (path : string) : string :=
  match path with
  | EmptyString => "."
  | _ =>
      let path := GoString.TrimRight path slash in
      match last (GoString.Split path slash) with
      | Some EmptyString | None => "/"
      | Some e => e
      end
  end.

(** [filepath.Dir]: all but the last element of the path, cleaned. *)
Definition Dir (path : string) : string :=
  let elems := GoString.Split path slash in
  Clean (GoString.Join (removelast elems) "/"
         +:+ (if bool_decide (1 < List.length elems) then "/" else EmptyString)).

End filepath.

(** ** Errors

    A Go [error] is a value; [nil] is [None]. The controller only ever
    formats errors with [%v], so an error is its kind and its message. *)

Inductive Errno := ENOENT | EEXIST | ENOTDIR | EISDIR | EBADF.

Inductive error_value :=
| PathError (op path : string) (errno : Errno)   (* *os.PathError *)
| ErrorString (msg : string).                    (* errors.New, fmt.Errorf, client errors *)

Abbreviation error := (option error_value).

Definition Errno_message (e : Errno) : string :=
  match e with
  | ENOENT => "no such file or directory"
  | EEXIST => "file exists"
  | ENOTDIR => "not a directory"
  | EISDIR => "is a directory"
  | EBADF => "bad file descriptor"
  end.

(** The [Error()] method. *)
Definition Error (e : error_value) : string :=
  match e with
  | PathError op path errno => op +:+ " " +:+ path +:+ ": " +:+ Errno_message errno
  | ErrorString msg => msg
  end.

(** [fmt.Errorf(prefix + "%v", err)]. *)
Definition Errorf (prefix : string) (err : error_value) : error_value :=
  ErrorString (prefix +:+ Error err).

(** ** regexp: an engine for a fragment of Go's RE2 syntax

    Literals, [.], [^], [$], grouping, alternation, [*], [+], [?] (and
    their non-greedy forms, which match the same strings) and escaped
    punctuation. Classes, counted repetition, flags and escapes of
    letters and digits are outside the fragment: [Compile] reports them
    as [unsupported], which is where this engine departs from Go's. The
    controller is defined over any implementation of the class
    [Imports] below, so only the concrete runs depend on the fragment. *)

Module regexp.

Inductive re :=
| Void                         (* matches nothing *)
| Eps                          (* the empty string *)
| Chr (c : ascii)
| Any                          (* any byte but newline *)
| Bol                          (* ^ : beginning of text *)
| Eol                          (* $ : end of text *)
| Cat (r1 r2 : re)
| Alt (r1 r2 : re)
| Star (r : re).

Definition cat (r1 r2 : re) : re :=
  match r1, r2 with
  | Void, _ | _, Void => Void
  | Eps, r | r, Eps => r
  | _, _ => Cat r1 r2
  end.

Definition alt (r1 r2 : re) : re :=
  match r1, r2 with
  | Void, r | r, Void => r
  | _, _ => Alt r1 r2
  end.

(** *** Parsing *)

(** An atom of the concatenation being read, with what has been
    applied to it: nothing, a repetition, or a repetition and its
    non-greedy mark. *)
Inductive rep := Plain | Repeated | Lazy.

(** One nesting level: the alternatives closed so far and the atoms of
    the current one, both latest first. *)
Record frame := Frame { alts : list re; atoms : list (re * rep) }.

Definition seq_of (atoms : list (re * rep)) : re :=
  foldl (λ acc a, cat a.1 acc) Eps atoms.

Definition close (f : frame) : re :=
  foldl (λ acc r, alt r acc) (seq_of (atoms f)) (alts f).

Definition push (r : re) (f : frame) : frame :=
  Frame (alts f) ((r, Plain) :: atoms f).

Definition is_punct (c : ascii) : bool :=
  let n := nat_of_ascii c in
  bool_decide (33 ≤ n ≤ 47 ∨ 58 ≤ n ≤ 64 ∨ 91 ≤ n ≤ 96 ∨ 123 ≤ n ≤ 126)%nat.

Definition repeat_of (c : ascii) (r : re) : re :=
  if Ascii.eqb c "*" then Star r
  else if Ascii.eqb c "+" then cat r (Star r)
  else alt r Eps.

Definition syntax_error (msg pattern : string) : error_value :=
  ErrorString ("error parsing regexp: " +:+ msg +:+ ": `" +:+ pattern +:+ "`").

(** The parser reads the pattern left to right; [escaped] says that
    the previous byte was a backslash, [cur] is the innermost open
    level and [outer] the enclosing ones. *)
Fixpoint parse (pattern : string) (rest : string) (escaped : bool)
    (cur : frame) (outer : list frame) : error_value + re :=
  match rest with
  | EmptyString =>
      if escaped then inl (syntax_error "trailing backslash at end of expression" pattern)
      else match outer with
           | [] => inr (close cur)
           | _ :: _ => inl (syntax_error "missing closing )" pattern)
           end
  | String c rest' =>
      if escaped then
        if is_punct c then parse pattern rest' false (push (Chr c) cur) outer
        else inl (ErrorString "unsupported escape sequence")
      else if Ascii.eqb c "\" then parse pattern rest' true cur outer
      else if Ascii.eqb c "(" then parse pattern rest' false (Frame [] []) (cur :: outer)
      else if Ascii.eqb c ")" then
        match outer with
        | [] => inl (syntax_error "unexpected )" pattern)
        | f :: outer' => parse pattern rest' false (push (close cur) f) outer'
        end
      else if Ascii.eqb c "|" then
        parse pattern rest' false (Frame (seq_of (atoms cur) :: alts cur) []) outer
      else if Ascii.eqb c "*" || Ascii.eqb c "+" || Ascii.eqb c "?" then
        match atoms cur with
        | [] =>
            match alts cur, outer with
            | [], _ :: _ =>
                if Ascii.eqb c "?" then inl (ErrorString "unsupported group flags")
                else inl (syntax_error "missing argument to repetition operator" pattern)
            | _, _ => inl (syntax_error "missing argument to repetition operator" pattern)
            end
        | (r, Plain) :: atoms' =>
            parse pattern rest' false (Frame (alts cur) ((repeat_of c r, Repeated) :: atoms')) outer
        | (r, Repeated) :: atoms' =>
            if Ascii.eqb c "?" then
              parse pattern rest' false (Frame (alts cur) ((r, Lazy) :: atoms')) outer
            else inl (syntax_error "invalid nested repetition operator" pattern)
        | (_, Lazy) :: _ =>
            inl (syntax_error "invalid nested repetition operator" pattern)
        end
      else if Ascii.eqb c "[" || Ascii.eqb c "{" then
        inl (ErrorString "unsupported character class or counted repetition")
      else if Ascii.eqb c "." then parse pattern rest' false (push Any cur) outer
      else if Ascii.eqb c "^" then parse pattern rest' false (push Bol cur) outer
      else if Ascii.eqb c "$" then parse pattern rest' false (push Eol cur) outer
      else parse pattern rest' false (push (Chr c) cur) outer
  end.

(** [regexp.Compile]. *)
Definition Compile (pattern : string) : error_value + re :=
  parse pattern pattern false (Frame [] []) [].

(** *** Matching, by derivatives

    [first] says that no byte of the text has been consumed yet and
    [last] that none is left: they give [^] and [$] their meaning. *)

Fixpoint nullable (first last : bool) (r : re) : bool :=
  match r with
  | Void | Chr _ | Any => false
  | Eps | Star _ => true
  | Bol => first
  | Eol => last
  | Cat r1 r2 => nullable first last r1 && nullable first last r2
  | Alt r1 r2 => nullable first last r1 || nullable first last r2
  end.

Definition newline : ascii := "010"%char.

Fixpoint deriv (first : bool) (c : ascii) (r : re) : re :=
  match r with
  | Void | Eps | Bol | Eol => Void
  | Chr a => if Ascii.eqb a c then Eps else Void
  | Any => if Ascii.eqb c newline then Void else Eps
  | Cat r1 r2 =>
      alt (cat (deriv first c r1) r2)
          (if nullable first false r1 then deriv first c r2 else Void)
  | Alt r1 r2 => alt (deriv first c r1) (deriv first c r2)
  | Star r1 => cat (deriv first c r1) (Star r1)
  end.

(** Does a prefix of [s] match [r]? *)
Fixpoint match_here (first : bool) (r : re) (s : string) : bool :=
  match s with
  | EmptyString => nullable first true r
  | String c s' => nullable first false r || match_here false (deriv first c r) s'
  end.

(** Does [s] from some position on have a prefix that matches [r]? *)
Fixpoint search (first : bool) (r : re) (s : string) : bool :=
  match_here first r s ||
  match s with
  | EmptyString => false
  | String _ s' => search false r s'
  end.

(** The method [MatchString] of a compiled expression: does [s] contain a
    match? *)
Definition Match (r : re) (s : string) : bool := search true r s.

End regexp.

(** ** Data model *)

(** What an [interface{}] holds in an object decoded from the catalog,
    and the one value the controller itself builds, a
    [map[string]string] (line 258). Numbers are integers here; the
    controller never inspects one. *)
Inductive value :=
| Nil                                   (* the nil interface, JSON null *)
| Bool (b : bool)
| Num (n : Z)
| Str (s : string)
| Slice (l : list value)                (* []interface{} *)
| MapIface (m : gmap string value)      (* map[string]interface{} *)
| MapStr (m : gmap string string).      (* map[string]string *)

(** [unstructured.Unstructured.Object]. *)
Abbreviation Object := (gmap string value).

(** [m[k]]: indexing a map gives the nil interface for a missing key. *)
Definition index (m : gmap string value) (k : string) : value :=
  default Nil (m !! k).

(** [_, ok := m[k]]. *)
Definition has_key (m : gmap string value) (k : string) : bool :=
  bool_decide (is_Some (m !! k)).

(** [v == nil] and [v != nil] on an interface value. *)
Definition is_nil (v : value) : bool :=
  match v with Nil => true | _ => false end.

Module k8sv1.
(** [metav1.APIResource], the fields the controller reads. *)
Record APIResource := {
  Name : string;
  Group : string;
  Namespaced : bool;
  Verbs : list string;
}.
End k8sv1.

Module v1.
(** [v1.BackupFilter]. *)
Record BackupFilter := {
  ApiGroup : string;
  Kinds : list string;
  KindsRegex : string;
  ResourceNames : list string;
  ResourceNameRegex : string;
  Namespaces : list string;
  NamespaceRegex : string;
}.

Definition set_Kinds (kinds : list string) (f : BackupFilter) : BackupFilter :=
  {| ApiGroup := ApiGroup f; Kinds := kinds; KindsRegex := KindsRegex f;
     ResourceNames := ResourceNames f; ResourceNameRegex := ResourceNameRegex f;
     Namespaces := Namespaces f; NamespaceRegex := NamespaceRegex f |}.

Definition set_Namespaces (namespaces : list string) (f : BackupFilter) : BackupFilter :=
  {| ApiGroup := ApiGroup f; Kinds := Kinds f; KindsRegex := KindsRegex f;
     ResourceNames := ResourceNames f; ResourceNameRegex := ResourceNameRegex f;
     Namespaces := namespaces; NamespaceRegex := NamespaceRegex f |}.

(** [v1.BackupTemplate]. *)
Record BackupTemplate := { BackupFilters : list BackupFilter }.

(** [v1.Backup], by the fields of its [Spec] the controller reads. *)
Record Backup := {
  Local : string;
  BackupEncryptionConfigNamespace : string;
  BackupEncryptionConfigName : string;
  BackupTemplateName : string;          (* Spec.BackupTemplate *)
}.
End v1.

Module schema.
Record GroupVersion := { Group : string; Version : string }.
Record GroupResource := { grGroup : string; grResource : string }.
Record GroupVersionResource := {
  gvrGroup : string; gvrVersion : string; gvrResource : string }.

(** [schema.ParseGroupVersion]. *)
Definition ParseGroupVersion (gv : string) : GroupVersion * error :=
  if bool_decide (gv = EmptyString ∨ gv = "/") then
    ({| Group := EmptyString; Version := EmptyString |}, None)
  else
    match GoString.CountByte gv "/", GoString.IndexByte gv "/" with
    | 0, _ => ({| Group := EmptyString; Version := gv |}, None)
    | 1, Some i =>
        ({| Group := GoString.take i gv; Version := GoString.drop (S i) gv |}, None)
    | _, _ =>
        ({| Group := EmptyString; Version := EmptyString |},
         Some (ErrorString ("unexpected GroupVersion string: " +:+ gv)))
    end.

(** [schema.ParseGroupResource]. *)
Definition ParseGroupResource (gr : string) : GroupResource :=
  match GoString.IndexByte gr "." with
  | Some i => {| grGroup := GoString.drop (S i) gr; grResource := GoString.take i gr |}
  | None => {| grGroup := EmptyString; grResource := gr |}
  end.

(** [gv.WithResource(resource)]. *)
Definition WithResource (gv : GroupVersion) (resource : string) : GroupVersionResource :=
  {| gvrGroup := Group gv; gvrVersion := Version gv; gvrResource := resource |}.
End schema.

(** [value.Transformer]: [TransformToStorage(data, context)], the context
    being the additional authenticated data. *)
Record Transformer := {
  TransformToStorage : string → string → string * error;
}.

(** [map[schema.GroupResource]value.Transformer]; the controller only
    reads it, and a missing key gives the nil transformer. *)
Abbreviation TransformerMap := (schema.GroupResource → option Transformer).

(** What [json.Marshal] is handed at its three call sites. *)
Inductive marshalable :=
| MObject (o : Object)
| MFilters (filters : list v1.BackupFilter)
| MBytes (b : string).

(** ** Execution

    A call either returns or panics (a failed type assertion). Code that
    touches the file system also threads its state. *)

Inductive Res (A : Type) :=
| Done (a : A)
| Panic (msg : string).
Arguments Done {A} a.
Arguments Panic {A} msg.

Definition Res_bind {A B} (f : A → Res B) (r : Res A) : Res B :=
  match r with
  | Done a => f a
  | Panic msg => Panic msg
  end.

#[export] Instance Res_ret : MRet Res := λ A a, Done a.
#[export] Instance Res_mbind : MBind Res := λ A B f r, Res_bind f r.

(** The type assertions [v.(string)] and [v.(map[string]interface{})]. *)
Definition assert_string (v : value) : Res string :=
  match v with
  | Str s => Done s
  | _ => Panic "interface conversion: interface {} is not string"
  end.

Definition assert_map (v : value) : Res (gmap string value) :=
  match v with
  | MapIface m => Done m
  | _ => Panic "interface conversion: interface {} is not map[string]interface {}"
  end.

(** ** Package os, as an in-memory tree

    A path names a node when the map holds its cleaned form; the root
    and the working directory are entries like any other. Creating a
    node needs its parent to be a directory. [Stat] reports every
    missing key as not existing, also below a file. Faults of the medium
    are not modelled, and closing a file always succeeds. *)

Inductive node :=
| Dir
| File (data : string).

Abbreviation FS := (gmap string node).

Definition M (A : Type) : Type := FS → Res (A * FS).

#[export] Instance M_ret : MRet M := λ A a fs, Done (a, fs).
#[export] Instance M_mbind : MBind M := λ A B f m fs,
  match m fs with
  | Done (a, fs') => f a fs'
  | Panic msg => Panic msg
  end.

(** A computation that leaves the file system alone. *)
Definition lift {A} (r : Res A) : M A := λ fs,
  match r with
  | Done a => Done (a, fs)
  | Panic msg => Panic msg
  end.

Module os.

(** [os.FileInfo], by [IsDir()]. *)
Record FileInfo := { IsDir : bool }.

(** [os.IsNotExist]. *)
Definition IsNotExist (err : error) : bool :=
  match err with
  | Some (PathError _ _ ENOENT) => true
  | _ => false
  end.

Definition parent_error (fs : FS) (op name : string) : error :=
  match fs !! filepath.Dir (filepath.Clean name) with
  | Some Dir => None
  | Some (File _) => Some (PathError op name ENOTDIR)
  | None => Some (PathError op name ENOENT)
  end.

(** [os.Stat]. *)
Definition Stat (name : string) : M (FileInfo * error) := λ fs,
  match fs !! filepath.Clean name with
  | Some Dir => Done (({| IsDir := true |}, None), fs)
  | Some (File _) => Done (({| IsDir := false |}, None), fs)
  | None => Done (({| IsDir := false |}, Some (PathError "stat" name ENOENT)), fs)
  end.

(** [os.Mkdir]. *)
Definition Mkdir (name : string) : M error := λ fs,
  match fs !! filepath.Clean name with
  | Some _ => Done (Some (PathError "mkdir" name EEXIST), fs)
  | None =>
      match parent_error fs "mkdir" name with
      | Some e => Done (Some e, fs)
      | None => Done (None, <[filepath.Clean name := Dir]> fs)
      end
  end.

(** An open file is the path it was opened at. *)
Record file := { path : string }.

(** [os.Create]: create or truncate. *)
Definition Create (name : string) : M (file * error) := λ fs,
  let f := {| path := filepath.Clean name |} in
  match fs !! filepath.Clean name with
  | Some Dir => Done ((f, Some (PathError "open" name EISDIR)), fs)
  | _ =>
      match parent_error fs "open" name with
      | Some e => Done ((f, Some e), fs)
      | None => Done ((f, None), <[filepath.Clean name := File EmptyString]> fs)
      end
  end.

(** [f.Write(b)]: append at the end of the file. *)
Definition Write (f : file) (b : string) : M error := λ fs,
  match fs !! path f with
  | Some (File data) => Done (None, <[path f := File (data +:+ b)]> fs)
  | _ => Done (Some (PathError "write" (path f) EBADF), fs)
  end.

(** [f.Close()]. *)
Definition Close (f : file) : M error := mret None.

End os.

(** ** What the controller imports

    Package [regexp] and [json.Marshal] of the Go library, and from the
    repository's package [common], which is not embedded here, the label
    constant and the construction of the transformers; the controller is
    defined over any implementation of them. *)
Class Imports := {
  Regexp : Type;
  regexp_Compile : string → error_value + Regexp;
  Regexp_MatchString : Regexp → string → bool;
  json_Marshal : marshalable → string * error;
  BackupEncryptionConfig : Type;
  common_GetEncryptionTransformers : BackupEncryptionConfig → TransformerMap * error;
  common_OldUIDReferenceLabel : string;
}.

Section Controller.
Context `{imports : Imports}.

(** [regexp.MatchString(pattern, s)]: compile, then match. *)
Definition regexp_MatchString (pattern s : string) : bool * error :=
  match regexp_Compile pattern with
  | inl e => (false, Some e)
  | inr re => (Regexp_MatchString re s, None)
  end.

(** The clients of [handler], each by the one method the controller
    calls: [Get(namespace, name)] of the two caches,
    [ServerResourcesForGroupVersion(groupVersion)] of the discovery
    client, and [Resource(gvr).List] with a field selector of the
    dynamic client. The catalog is read-only during a run. *)
Record handler := {
  backupTemplates : string → string → v1.BackupTemplate * error;
  backupEncryptionConfigs : string → string → BackupEncryptionConfig * error;
  discoveryClient : string → list k8sv1.APIResource * error;
  dynamicClient : schema.GroupVersionResource → string → list Object * error;
}.

Definition avoidBackupResources : gmap string bool := {[ "pods" := true ]}.

(** Lines 372-379. *)
Fixpoint canListResource (verbs : list string) : bool :=
  match verbs with
  | [] => false
  | v :: verbs' => if bool_decide (v = "list") then true else canListResource verbs'
  end.

(** Lines 381-388. *)
Fixpoint canUpdateResource (verbs : list string) : bool :=
  match verbs with
  | [] => false
  | v :: verbs' =>
      if bool_decide (v = "update") || bool_decide (v = "patch") then true
      else canUpdateResource verbs'
  end.

(** Lines 315-328. *)
Definition skipBackup (res : k8sv1.APIResource) : bool :=
  if default false (avoidBackupResources !! k8sv1.Name res) then true
  else if negb (canListResource (k8sv1.Verbs res)) then true
  else if negb (canUpdateResource (k8sv1.Verbs res)) then true
  else false.

(** Lines 330-339. An error of [os.Stat] other than "does not exist"
    is dropped. *)
Definition createResourceDir (path : string) : M error :=
  '(_, err) ← os.Stat path;
  if os.IsNotExist err then
    err ← os.Mkdir path;
    match err with
    | Some e => mret (Some (Errorf "error creating temp dir: " e))
    | None => mret None
    end
  else mret None.

(** Lines 348-361 of [writeToBackup]: the bytes to write, which are the
    marshalled object, or the marshalled result of its transformation
    when the resource type has a transformer. *)
Definition encode (resource : Object) (transformer : option Transformer)
    (additionalAuthenticatedData : string) : string * error :=
  let '(resourceBytes, err) := json_Marshal (MObject resource) in
  match err with
  | Some e => (resourceBytes, Some (Errorf "error converting resource to JSON: " e))
  | None =>
      match transformer with
      | Some t =>
          let '(encrypted, err) :=
            TransformToStorage t resourceBytes additionalAuthenticatedData in
          match err with
          | Some e => (resourceBytes, Some (Errorf "error converting resource to JSON: " e))
          | None =>
              let '(resourceBytes, err) := json_Marshal (MBytes encrypted) in
              match err with
              | Some e =>
                  (resourceBytes,
                   Some (Errorf "error converting encrypted resource to JSON: " e))
              | None => (resourceBytes, None)
              end
          end
      | None => (resourceBytes, None)
      end
  end.

(** Lines 341-370. The deferred second [Close] has no effect. *)
Definition writeToBackup (resource : Object) (backupPath filename : string)
    (transformer : option Transformer) (additionalAuthenticatedData : string) : M error :=
  '(f, err) ← os.Create (filepath.Join [backupPath; filepath.Base (filename +:+ ".json")]);
  match err with
  | Some e => mret (Some (Errorf "error creating temp file: " e))
  | None =>
      let '(resourceBytes, err) :=
        encode resource transformer additionalAuthenticatedData in
      match err with
      | Some e => mret (Some e)
      | None =>
          err ← os.Write f resourceBytes;
          match err with
          | Some e => mret (Some (Errorf "error writing JSON to file: " e))
          | None =>
              err ← os.Close f;
              match err with
              | Some e => mret (Some (Errorf "error closing file: " e))
              | None => mret None
              end
          end
      end
  end.

(** Lines 248-253: the object is finalizing and no finalizer key is
    set. *)
Definition skipObject (metadata : gmap string value) : bool :=
  has_key metadata "deletionTimestamp" && negb (has_key metadata "finalizers").

(** Lines 268-270: the server-assigned fields and their removal. *)
Definition volatile : list string :=
  ["uid"; "resourceVersion"; "generation"; "creationTimestamp"].

Definition strip (metadata : gmap string value) : gmap string value :=
  foldl (λ m field, delete field m) metadata volatile.

(** Lines 255-270: the name is read, the uid is recorded under the
    label, the server-assigned fields are deleted. The map is changed
    in place; the result is its new state and the name. *)
Definition sanitize (metadata : gmap string value) : Res (gmap string value * string) :=
  let currObjLabels := index metadata "labels" in
  objName ← assert_string (index metadata "name");
  metadata ←
    (if negb (is_nil (index metadata "uid")) then
       uid ← assert_string (index metadata "uid");
       let oidLabel : gmap string string := {[ common_OldUIDReferenceLabel := uid ]} in
       if is_nil currObjLabels then
         mret (<["labels" := MapStr oidLabel]> metadata)
       else
         currLabels ← assert_map currObjLabels;
         let currLabels := <[common_OldUIDReferenceLabel := Str uid]> currLabels in
         mret (<["labels" := MapIface currLabels]> metadata)
     else mret metadata);
  mret (strip metadata, objName).

(** Line 279. *)
Definition privileged (res : k8sv1.APIResource) : bool :=
  bool_decide (k8sv1.Name res = "customresourcedefinitions")
  || bool_decide (k8sv1.Name res = "namespaces").

(** Lines 293 and 302. *)
Definition partitionPath (dirPath : string) (res : k8sv1.APIResource)
    (gv : schema.GroupVersion) : string :=
  dirPath +:+ "/" +:+ k8sv1.Name res +:+ "." +:+ schema.Group gv
          +:+ "#" +:+ schema.Version gv.

(** [createResourceDir] then [writeToBackup], as at each of the three
    places an object is written. *)
Definition writeUnder (resourcePath : string) (resource : Object) (objName : string)
    (transformer : option Transformer) (additionalAuthenticatedData : string) : M error :=
  err ← createResourceDir resourcePath;
  match err with
  | Some e => mret (Some e)
  | None => writeToBackup resource resourcePath objName transformer additionalAuthenticatedData
  end.

(** Lines 246-310, the body of the loop of [writeBackupObjects] for the
    object at position [i] of the listed items [store]. The items hold
    their maps by reference, so the body updates [store]; an error
    returned with it ends the loop, [None] goes on to the next
    object. *)
Definition writeBackupObject (store : list Object) (i : nat)
    (res : k8sv1.APIResource) (gv : schema.GroupVersion)
    (backupPath ownerDirPath dependentDirPath : string)
    (transformerMap : TransformerMap) : M (list Object * error) :=
  match store !! i with
  | None => lift (Panic "index out of range")
  | Some resObj =>
      metadata ← lift (assert_map (index resObj "metadata"));
      if skipObject metadata then mret (store, None)
      else
        '(metadata, objName) ← lift (sanitize metadata);
        let resObj := <["metadata" := MapIface metadata]> resObj in
        let store := <[i := resObj]> store in
        let gr := schema.ParseGroupResource (k8sv1.Name res +:+ "." +:+ k8sv1.Group res) in
        let encryptionTransformer := transformerMap gr in
        let additionalAuthenticatedData := objName in
        err ← (if privileged res then
                 writeUnder (filepath.Join [backupPath; k8sv1.Name res]) resObj objName
                   encryptionTransformer additionalAuthenticatedData
               else mret None);
        match err with
        | Some e => mret (store, Some e)
        | None =>
            let ownerRefs := index metadata "ownerReferences" in
            err ← (if is_nil ownerRefs then
                     writeUnder (partitionPath ownerDirPath res gv) resObj objName
                       encryptionTransformer additionalAuthenticatedData
                   else
                     writeUnder (partitionPath dependentDirPath res gv) resObj objName
                       encryptionTransformer additionalAuthenticatedData);
            mret (store, err)
        end
  end.

(** Lines 244-313: [resObjects] are positions in [store], possibly
    with repetitions. *)
Fixpoint writeBackupObjects_loop (store : list Object) (resObjects : list nat)
    (res : k8sv1.APIResource) (gv : schema.GroupVersion)
    (backupPath ownerDirPath dependentDirPath : string)
    (transformerMap : TransformerMap) : M (list Object * error) :=
  match resObjects with
  | [] => mret (store, None)
  | i :: resObjects' =>
      '(store, err) ← writeBackupObject store i res gv backupPath ownerDirPath
                        dependentDirPath transformerMap;
      match err with
      | Some e => mret (store, Some e)
      | None =>
          writeBackupObjects_loop store resObjects' res gv backupPath ownerDirPath
            dependentDirPath transformerMap
      end
  end.

Definition writeBackupObjects (store : list Object) (resObjects : list nat)
    (res : k8sv1.APIResource) (gv : schema.GroupVersion)
    (backupPath ownerDirPath dependentDirPath : string)
    (transformerMap : TransformerMap) : M error :=
  '(_, err) ← writeBackupObjects_loop store resObjects res gv backupPath ownerDirPath
                dependentDirPath transformerMap;
  mret err.


(** Lines 174-195: the field selector. The result of
    [strings.TrimRight] on line 195 is not assigned, so the selector
    is the one built by the two loops. *)
Definition fieldSelector (res : k8sv1.APIResource) (filter : v1.BackupFilter) : string :=
  let fieldSelector := EmptyString in
  let fieldSelector :=
    if bool_decide (0 < List.length (v1.ResourceNames filter)) then
      foldl (λ fieldSelector ns, fieldSelector +:+ ("metadata.name=" +:+ ns +:+ ","))
        fieldSelector (v1.ResourceNames filter)
    else fieldSelector in
  let fieldSelector :=
    if k8sv1.Namespaced res then
      if bool_decide (0 < List.length (v1.Namespaces filter)) then
        foldl (λ fieldSelector ns, fieldSelector +:+ ("metadata.namespace=" +:+ ns +:+ ","))
          fieldSelector (v1.Namespaces filter)
      else fieldSelector
    else fieldSelector in
  let _ := GoString.TrimRight fieldSelector "," in
  fieldSelector.

(** Lines 204-215: the pass over the items by name; [i] is the
    position of the head of [items]. *)
Fixpoint filterByName (regex : string) (items : list Object) (i : nat)
    (filteredObjects : list nat) : Res (list nat * error) :=
  match items with
  | [] => mret (filteredObjects, None)
  | resObj :: items' =>
      metadata ← assert_map (index resObj "metadata");
      name ← assert_string (index metadata "name");
      let '(nameMatched, err) := regexp_MatchString regex name in
      match err with
      | Some e => mret (filteredObjects, Some e)
      | None =>
          if negb nameMatched then filterByName regex items' (S i) filteredObjects
          else filterByName regex items' (S i) (filteredObjects ++ [i])
      end
  end.

(** Lines 219-231: the pass over the items by namespace. *)
Fixpoint filterByNamespace (regex : string) (items : list Object) (i : nat)
    (filteredObjects : list nat) (filteredNs : list string)
  : Res (list nat * list string * error) :=
  match items with
  | [] => mret (filteredObjects, filteredNs, None)
  | resObj :: items' =>
      metadata ← assert_map (index resObj "metadata");
      namespace ← assert_string (index metadata "namespace");
      let '(nsMatched, err) := regexp_MatchString regex namespace in
      match err with
      | Some e => mret (filteredObjects, filteredNs, Some e)
      | None =>
          if negb nsMatched then
            filterByNamespace regex items' (S i) filteredObjects filteredNs
          else
            filterByNamespace regex items' (S i) (filteredObjects ++ [i])
              (filteredNs ++ [namespace])
      end
  end.

(** Lines 201-239 of [gatherObjectsForResource]: the selected objects,
    as positions in the listed [items], and the function's own copy of
    the filter after line 234. *)
Definition filterObjects (res : k8sv1.APIResource) (filter : v1.BackupFilter)
    (items : list Object) : Res (list nat * v1.BackupFilter * error) :=
  let filteredObjects : list nat := [] in
  '(filteredObjects, err) ←
    (if bool_decide (v1.ResourceNameRegex filter ≠ EmptyString) then
       filterByName (v1.ResourceNameRegex filter) items 0 filteredObjects
     else mret (filteredObjects, None));
  match err with
  | Some e => mret (filteredObjects, filter, Some e)
  | None =>
      let filteredNs : list string := [] in
      '(filteredObjects, filteredNs, err) ←
        (if bool_decide (v1.NamespaceRegex filter ≠ EmptyString) then
           filterByNamespace (v1.NamespaceRegex filter) items 0 filteredObjects filteredNs
         else mret (filteredObjects, filteredNs, None));
      match err with
      | Some e => mret (filteredObjects, filter, Some e)
      | None =>
          let filter' :=
            if k8sv1.Namespaced res && bool_decide (0 < List.length filteredNs) then
              v1.set_Namespaces (v1.Namespaces filter ++ filteredNs) filter
            else filter in
          let filteredObjects :=
            if bool_decide (v1.NamespaceRegex filter = EmptyString)
               && bool_decide (v1.ResourceNameRegex filter = EmptyString)
            then seq 0 (List.length items)
            else filteredObjects in
          mret (filteredObjects, filter', None)
      end
  end.

(** Lines 173-242. [filter] is passed by value: the namespaces added
    to it on line 234 stay in this call. *)
Definition gatherObjectsForResource (h : handler) (res : k8sv1.APIResource)
    (gv : schema.GroupVersion) (filter : v1.BackupFilter)
    (backupPath ownerDirPath dependentDirPath : string)
    (transformerMap : TransformerMap) : M error :=
  let gvr := schema.WithResource gv (k8sv1.Name res) in
  let '(resObjects, err) := dynamicClient h gvr (fieldSelector res filter) in
  match err with
  | Some e => mret (Some e)
  | None =>
      '(filteredObjects, _, err) ← lift (filterObjects res filter resObjects);
      match err with
      | Some e => mret (Some e)
      | None =>
          writeBackupObjects resObjects filteredObjects res gv backupPath ownerDirPath
            dependentDirPath transformerMap
      end
  end.

(** Lines 155-168. *)
Fixpoint matchResources (filter : v1.BackupFilter) (resources : list k8sv1.APIResource)
    (resourceList : list k8sv1.APIResource) : list k8sv1.APIResource * error :=
  match resources with
  | [] => (resourceList, None)
  | res :: resources' =>
      let '(matched, err) := regexp_MatchString (v1.KindsRegex filter) (k8sv1.Name res) in
      match err with
      | Some e => (resourceList, Some e)
      | None =>
          if negb matched then matchResources filter resources' resourceList
          else matchResources filter resources' (resourceList ++ [res])
      end
  end.

(** Lines 140-171. *)
Definition gatherResourcesForGroupVersion (h : handler) (filter : v1.BackupFilter)
  : list k8sv1.APIResource * error :=
  let resourceList : list k8sv1.APIResource := [] in
  let groupVersion := v1.ApiGroup filter in
  let '(resources, err) := discoveryClient h groupVersion in
  match err with
  | Some e => (resourceList, Some e)
  | None =>
      if bool_decide (v1.KindsRegex filter = ".") then (resources, None)
      else matchResources filter resources resourceList
  end.

(** Lines 126-135: the resource types of one filter. *)
Fixpoint gatherResources_types (h : handler) (resourceList : list k8sv1.APIResource)
    (gv : schema.GroupVersion) (filter : v1.BackupFilter)
    (backupPath ownerDirPath dependentDirPath : string)
    (transformerMap : TransformerMap) : M error :=
  match resourceList with
  | [] => mret None
  | res :: resourceList' =>
      if skipBackup res then
        gatherResources_types h resourceList' gv filter backupPath ownerDirPath
          dependentDirPath transformerMap
      else
        err ← gatherObjectsForResource h res gv filter backupPath ownerDirPath
                dependentDirPath transformerMap;
        match err with
        | Some e => mret (Some e)
        | None =>
            gatherResources_types h resourceList' gv filter backupPath ownerDirPath
              dependentDirPath transformerMap
        end
  end.

(** Lines 109-136: the loop over the filters from position [ind] on,
    [pending] being the filters still to visit. [filters] is the
    slice of the template, which line 119 writes to. *)
Fixpoint gatherResources_loop (h : handler) (pending : list v1.BackupFilter) (ind : nat)
    (filters : list v1.BackupFilter)
    (backupPath ownerDirPath dependentDirPath : string)
    (transformerMap : TransformerMap) : M (list v1.BackupFilter * error) :=
  match pending with
  | [] => mret (filters, None)
  | filter :: pending' =>
      let '(resourceList, err) := gatherResourcesForGroupVersion h filter in
      match err with
      | Some e => mret (filters, Some e)
      | None =>
          let '(filter, filters) :=
            if bool_decide (List.length (v1.Kinds filter) = 0) then
              let filter :=
                v1.set_Kinds
                  (foldl (λ kinds res, kinds ++ [k8sv1.Name res]) (v1.Kinds filter) resourceList)
                  filter in
              (filter, <[ind := filter]> filters)
            else (filter, filters) in
          let '(gv, err) := schema.ParseGroupVersion (v1.ApiGroup filter) in
          match err with
          | Some e => mret (filters, Some e)
          | None =>
              err ← gatherResources_types h resourceList gv filter backupPath ownerDirPath
                      dependentDirPath transformerMap;
              match err with
              | Some e => mret (filters, Some e)
              | None =>
                  gatherResources_loop h pending' (S ind) filters backupPath ownerDirPath
                    dependentDirPath transformerMap
              end
          end
      end
  end.

(** Lines 108-138. The slice shares its array with the caller's, so
    the filters as the loop left them are part of the result. *)
Definition gatherResources (h : handler) (filters : list v1.BackupFilter)
    (backupPath ownerDirPath dependentDirPath : string)
    (transformerMap : TransformerMap) : M (list v1.BackupFilter * error) :=
  gatherResources_loop h filters 0 filters backupPath ownerDirPath dependentDirPath
    transformerMap.

Definition is_nil_error (err : error) : bool :=
  match err with None => true | Some _ => false end.

(** Lines 55-106. [err] is one variable throughout: line 90 assigns
    it the result of [gatherResources], lines 92 and 96 assign it
    again, and line 105 returns it. *)
Definition OnBackupChange (h : handler) (backup : v1.Backup) : M (v1.Backup * error) :=
  let backupPath := v1.Local backup in
  '(backupInfo, err) ← os.Stat backupPath;
  if is_nil_error err && os.IsDir backupInfo then mret (backup, None)
  else
    err ← os.Mkdir backupPath;
    match err with
    | Some e => mret (backup, Some (Errorf "error creating temp dir: " e))
    | None =>
    let ownerDirPath := backupPath +:+ "/owners" in
    err ← os.Mkdir ownerDirPath;
    match err with
    | Some e => mret (backup, Some (Errorf "error creating temp dir: " e))
    | None =>
    let dependentDirPath := backupPath +:+ "/dependents" in
    err ← os.Mkdir dependentDirPath;
    match err with
    | Some e => mret (backup, Some (Errorf "error creating temp dir: " e))
    | None =>
    let '(config, err) :=
      backupEncryptionConfigs h (v1.BackupEncryptionConfigNamespace backup)
        (v1.BackupEncryptionConfigName backup) in
    match err with
    | Some e => mret (backup, Some e)
    | None =>
    let '(transformerMap, err) := common_GetEncryptionTransformers config in
    match err with
    | Some e => mret (backup, Some e)
    | None =>
    let '(template, err) := backupTemplates h "default" (v1.BackupTemplateName backup) in
    match err with
    | Some e => mret (backup, Some e)
    | None =>
    '(BackupFilters, err) ← gatherResources h (v1.BackupFilters template) backupPath
                              ownerDirPath dependentDirPath transformerMap;
    let '(filters, err) := json_Marshal (MFilters BackupFilters) in
    match err with
    | Some e => mret (backup, Some e)
    | None =>
    '(filterFile, err) ← os.Create (filepath.Join [backupPath; filepath.Base "filters.json"]);
    match err with
    | Some e => mret (backup, Some (Errorf "error creating filters file: " e))
    | None =>
    err' ← os.Write filterFile filters;
    match err' with
    | Some e => mret (backup, Some (Errorf "error writing JSON to filters file: " e))
    | None => mret (backup, err)
    end end end end end end end end end.

(** ** Reading the listed objects and the filters *)

(** The metadata, name and namespace of an object, when it has them
    with the types the controller asserts. *)
Definition metadataOf (o : Object) : option (gmap string value) :=
  match o !! "metadata" with
  | Some (MapIface m) => Some m
  | _ => None
  end.

Definition stringAt (k : string) (o : Object) : option string :=
  m ← metadataOf o;
  match m !! k with
  | Some (Str s) => Some s
  | _ => None
  end.

Definition nameOf : Object → option string := stringAt "name".
Definition namespaceOf : Object → option string := stringAt "namespace".

(** Does this field of the object match the compiled expression? *)
Definition fieldMatches (k : string) (re : Regexp) (o : Object) : bool :=
  match stringAt k o with
  | Some s => Regexp_MatchString re s
  | None => false
  end.

(** The positions of the items that satisfy [P], in order, the head of
    [items] being at position [i]. *)
Fixpoint matching (P : Object → bool) (items : list Object) (i : nat) : list nat :=
  match items with
  | [] => []
  | o :: items' => (if P o then [i] else []) ++ matching P items' (S i)
  end.


(** Filter resolution as the code performs it: the discovered types
    when the pattern is the dot, else those whose name matches; a
    malformed pattern is an error when there is a discovered type to
    evaluate it on, and goes unnoticed when there is none. *)
Definition resolve (h : handler) (filter : v1.BackupFilter)
  : list k8sv1.APIResource * error :=
  let '(resources, err) := discoveryClient h (v1.ApiGroup filter) in
  match err with
  | Some e => ([], Some e)
  | None =>
      if bool_decide (v1.KindsRegex filter = ".") then (resources, None)
      else
        match regexp_Compile (v1.KindsRegex filter) with
        | inr re =>
            (List.filter (λ res, Regexp_MatchString re (k8sv1.Name res)) resources, None)
        | inl e =>
            match resources with
            | [] => ([], None)
            | _ :: _ => ([], Some e)
            end
        end
  end.

(** ** Reading the output tree *)

(** Where [writeToBackup] puts the file of an object: the key of
    [filepath.Join(backupPath, filepath.Base(filename + ".json"))] in
    the file system. *)
Definition fileKey (backupPath filename : string) : string :=
  filepath.Clean (filepath.Join [backupPath; filepath.Base (filename +:+ ".json")]).

(** The tree holds a file at this key. *)
Definition is_file (fs : FS) (key : string) : Prop :=
  ∃ data, fs !! key = Some (File data).

(** The tree [fs'] has every directory and every file of [fs], possibly
    with other contents: nothing was removed and no node changed its
    kind. *)
Definition grows (fs fs' : FS) : Prop :=
  ∀ key, (fs !! key = Some Dir → fs' !! key = Some Dir)
         ∧ (is_file fs key → is_file fs' key).

(** A computation that only ever makes the tree grow. *)
Definition Grows {A} (m : M A) : Prop :=
  ∀ fs a fs', m fs = Done (a, fs') → grows fs fs'.

(** The partition of an object, by line 292. *)
Definition partitionOf (metadata : gmap string value)
    (ownerDirPath dependentDirPath : string) : string :=
  if is_nil (index metadata "ownerReferences") then ownerDirPath else dependentDirPath.

(** The filter as a run leaves it in the template: when its kinds were
    empty they are the names of the resolved resource types. *)
Definition realized (h : handler) (filter : v1.BackupFilter) : v1.BackupFilter :=
  if bool_decide (List.length (v1.Kinds filter) = 0) then
    v1.set_Kinds (map k8sv1.Name (gatherResourcesForGroupVersion h filter).1) filter
  else filter.

End Controller.

Arguments strip : simpl never.

(** ** An implementation of the imports, to run the controller *)

Module json.

Definition dquote : string := String "034"%char EmptyString.

(** A string literal: quotes and backslashes are escaped. *)
Fixpoint escape (s : string) : string :=
  match s with
  | EmptyString => EmptyString
  | String c s' =>
      if Ascii.eqb c "034" || Ascii.eqb c "\" then String "\" (String c (escape s'))
      else String c (escape s')
  end.

Definition quote (s : string) : string := dquote +:+ escape s +:+ dquote.

(** Members of an object come out sorted by key. *)
Fixpoint insert_member (m : string * string) (ms : list (string * string))
  : list (string * string) :=
  match ms with
  | [] => [m]
  | m' :: ms' => if String.leb m.1 m'.1 then m :: ms else m' :: insert_member m ms'
  end.

Definition object_of (members : list (string * string)) : string :=
  "{" +:+ GoString.Join (map (λ m, quote m.1 +:+ ":" +:+ m.2) members) "," +:+ "}".

Definition array_of (elems : list string) : string :=
  "[" +:+ GoString.Join elems "," +:+ "]".

Fixpoint marshal_value (v : value) : string :=
  match v with
  | Nil => "null"
  | Bool b => if b then "true" else "false"
  | Num n => pretty n
  | Str s => quote s
  | Slice l => array_of (map marshal_value l)
  | MapIface m =>
      object_of (map_fold (λ k v ms, insert_member (k, marshal_value v) ms) [] m)
  | MapStr m =>
      object_of (map_fold (λ k s ms, insert_member (k, quote s) ms) [] m)
  end.

(** Modelled from the spec: the JSON names of the fields of a filter;
    the declaration of [v1.BackupFilter] with its tags is not among the
    sources. *)
Definition marshal_filter (f : v1.BackupFilter) : string :=
  object_of
    [ ("apiGroupVersion", quote (v1.ApiGroup f));
      ("kinds", array_of (map quote (v1.Kinds f)));
      ("kindsRegex", quote (v1.KindsRegex f));
      ("resourceNames", array_of (map quote (v1.ResourceNames f)));
      ("resourceNameRegex", quote (v1.ResourceNameRegex f));
      ("namespaces", array_of (map quote (v1.Namespaces f)));
      ("namespaceRegex", quote (v1.NamespaceRegex f)) ].

(** Base64, which is how a byte slice is marshalled. *)
Definition alphabet : string :=
  "ABCDEFGHIJKLMNOPQRSTUVWXYZabcdefghijklmnopqrstuvwxyz0123456789+/".

Definition sextet (n : N) : string :=
  match String.get (N.to_nat (n mod 64)) alphabet with
  | Some c => String c EmptyString
  | None => EmptyString
  end.

Fixpoint base64 (s : string) : string :=
  match s with
  | EmptyString => EmptyString
  | String a EmptyString =>
      let n := (N_of_ascii a * 65536)%N in
      sextet (n / 262144) +:+ sextet (n / 4096) +:+ "=="
  | String a (String b EmptyString) =>
      let n := (N_of_ascii a * 65536 + N_of_ascii b * 256)%N in
      sextet (n / 262144) +:+ sextet (n / 4096) +:+ sextet (n / 64) +:+ "="
  | String a (String b (String c s')) =>
      let n := (N_of_ascii a * 65536 + N_of_ascii b * 256 + N_of_ascii c)%N in
      sextet (n / 262144) +:+ sextet (n / 4096) +:+ sextet (n / 64) +:+ sextet n
      +:+ base64 s'
  end.

(** [json.Marshal] at the three types it is called with; none of them
    can fail to marshal. *)
Definition Marshal (v : marshalable) : string * error :=
  match v with
  | MObject o => (marshal_value (MapIface o), None)
  | MFilters filters => (array_of (map marshal_filter filters), None)
  | MBytes b => (quote (base64 b), None)
  end.

End json.

(** The imports of the concrete runs: the engine of [regexp], the
    printer of [json], an encryption configuration that is the
    transformer map itself, and the label (the spec's example of it;
    the constant is declared in package [common]). *)
Definition run_imports : Imports := {|
  Regexp := regexp.re;
  regexp_Compile := regexp.Compile;
  Regexp_MatchString := regexp.Match;
  json_Marshal := json.Marshal;
  BackupEncryptionConfig := TransformerMap;
  common_GetEncryptionTransformers := λ config, (config, None);
  common_OldUIDReferenceLabel := "original-uid";
|}.

(** ** Concrete catalogs and runs *)

Module Run.

#[local] Existing Instance run_imports.

Definition verbs : list string :=
  ["create"; "delete"; "get"; "list"; "patch"; "update"; "watch"].

Definition resource (name group : string) (namespaced : bool) : k8sv1.APIResource :=
  {| k8sv1.Name := name; k8sv1.Group := group; k8sv1.Namespaced := namespaced;
     k8sv1.Verbs := verbs |}.

Definition filter (apiGroup kindsRegex resourceNameRegex namespaceRegex : string)
  : v1.BackupFilter :=
  {| v1.ApiGroup := apiGroup; v1.Kinds := []; v1.KindsRegex := kindsRegex;
     v1.ResourceNames := []; v1.ResourceNameRegex := resourceNameRegex;
     v1.Namespaces := []; v1.NamespaceRegex := namespaceRegex |}.

(** An object by its metadata. *)
Definition object (kind : string) (metadata : list (string * value)) : Object :=
  {[ "kind" := Str kind; "metadata" := MapIface (list_to_map metadata) ]}.

Definition not_found : error_value :=
  ErrorString "the server could not find the requested resource".

(** A catalog: the resource types of each group and version, and the
    objects of each resource type or the error listing it gives. The
    fake listing ignores the field selector. *)
Definition catalog_handler
    (types : list (string * list k8sv1.APIResource))
    (objects : list (string * (list Object * error)))
    (filters : list v1.BackupFilter) : handler :=
  {| backupTemplates := λ _ _, ({| v1.BackupFilters := filters |}, None);
     backupEncryptionConfigs := λ _ _, (λ _, None, None);
     discoveryClient := λ groupVersion,
       match (list_to_map types : gmap string _) !! groupVersion with
       | Some rs => (rs, None)
       | None => ([], Some not_found)
       end;
     dynamicClient := λ gvr _,
       match (list_to_map objects : gmap string _) !! schema.gvrResource gvr with
       | Some r => r
       | None => ([], None)
       end |}.

Definition fs0 : FS := {[ "/" := Dir; "/backups" := Dir ]}.

Definition backup : v1.Backup :=
  {| v1.Local := "/backups/b1";
     v1.BackupEncryptionConfigNamespace := "default";
     v1.BackupEncryptionConfigName := "enc";
     v1.BackupTemplateName := "tmpl" |}.

(** The file system once the three directories of a run exist. *)
Definition fs1 : FS :=
  <["/backups/b1/dependents" := Dir]>
    (<["/backups/b1/owners" := Dir]> (<["/backups/b1" := Dir]> fs0)).

Definition no_transformers : TransformerMap := λ _, None.

(** *** The core group: pods, services and secrets *)

Definition core_resources : list k8sv1.APIResource :=
  [ resource "pods" EmptyString true;
    resource "services" EmptyString true;
    resource "secrets" EmptyString true ].

Definition core_types : list (string * list k8sv1.APIResource) :=
  [ ("v1", core_resources) ].

Definition web : Object :=
  object "Service"
    [ ("name", Str "web"); ("namespace", Str "default"); ("uid", Str "abc-123");
      ("resourceVersion", Str "41") ].

Definition dns : Object :=
  object "Service"
    [ ("name", Str "dns"); ("namespace", Str "kube-system"); ("uid", Str "def-456") ].

Definition pods_or_services : v1.BackupFilter :=
  filter "v1" "^(pods|services)$" EmptyString EmptyString.

Definition core_handler (filters : list v1.BackupFilter) : handler :=
  catalog_handler core_types [ ("services", ([web; dns], None)) ] filters.

(** Listing secrets is refused. *)
Definition forbidden : error_value := ErrorString "secrets is forbidden".

Definition refusing_handler (filters : list v1.BackupFilter) : handler :=
  catalog_handler core_types
    [ ("services", ([web; dns], None)); ("secrets", ([], Some forbidden)) ] filters.

Definition everything : v1.BackupFilter := filter "v1" "." EmptyString EmptyString.

(** Services of the namespaces whose name starts with [kube-]. *)
Definition kube_services : v1.BackupFilter :=
  filter "v1" "^services$" EmptyString "^kube-".

(** *** Cluster-scoped objects: namespaces *)

Definition namespaces : k8sv1.APIResource := resource "namespaces" EmptyString false.

Definition kube_system : Object :=
  object "Namespace" [ ("name", Str "kube-system"); ("uid", Str "ns-1") ].

Definition kube_namespaces : v1.BackupFilter :=
  filter "v1" "^namespaces$" EmptyString "^kube-".

Definition cluster_handler (filters : list v1.BackupFilter) : handler :=
  catalog_handler [ ("v1", [ namespaces ]) ] [ ("namespaces", ([kube_system], None)) ]
    filters.

(** *** A custom resource type: widgets *)

Definition widgets : k8sv1.APIResource := resource "widgets" "example.com" true.

Definition widgets_gv : schema.GroupVersion :=
  {| schema.Group := "example.com"; schema.Version := "v1" |}.

Definition owner_reference : value :=
  MapIface {[ "kind" := Str "Gadget"; "name" := Str "g"; "uid" := Str "g-1" ]}.

(** [ownerReferences: []]. *)
Definition widget_a : Object :=
  object "Widget"
    [ ("name", Str "a"); ("namespace", Str "default"); ("ownerReferences", Slice []) ].

(** [ownerReferences: [{...}]]. *)
Definition widget_b : Object :=
  object "Widget"
    [ ("name", Str "b"); ("namespace", Str "default");
      ("ownerReferences", Slice [owner_reference]) ].

(** No [ownerReferences]. *)
Definition widget_c : Object :=
  object "Widget" [ ("name", Str "c"); ("namespace", Str "default") ].


(** Being deleted, without the key [finalizers]. *)
Definition widget_e : Object :=
  object "Widget"
    [ ("name", Str "e"); ("namespace", Str "default");
      ("deletionTimestamp", Str "2020-05-01T10:00:00Z") ].

(** Being deleted, with a finalizer. *)
Definition widget_f : Object :=
  object "Widget"
    [ ("name", Str "f"); ("namespace", Str "default");
      ("deletionTimestamp", Str "2020-05-01T10:00:00Z");
      ("finalizers", Slice [Str "example.com/cleanup"]) ].

(** *** A group and version without resource types *)

Definition empty_handler : handler :=
  catalog_handler [ ("empty.example.com/v1", []) ] [] [].

Definition malformed : v1.BackupFilter :=
  filter "empty.example.com/v1" "(" EmptyString EmptyString.

(** *** Reading a result *)

Definition store_of {A} (r : Res (list Object * A * FS)) : list Object :=
  match r with
  | Done ((store, _), _) => store
  | Panic _ => []
  end.

Definition fs_of {A} (r : Res (A * FS)) : FS :=
  match r with
  | Done (_, fs) => fs
  | Panic _ => ∅
  end.

Definition value_of {A} (r : Res (A * FS)) : option A :=
  match r with
  | Done (a, _) => Some a
  | Panic _ => None
  end.

Definition metadata_of (o : Object) : gmap string value :=
  default ∅ (metadataOf o).

(** The body of the loop of [writeBackupObjects] on a single widget,
    in the tree of a run that has just created its directories. *)
Definition write_widget (widget : Object) : Res (list Object * error * FS) :=
  writeBackupObject [widget] 0 widgets widgets_gv "/backups/b1" "/backups/b1/owners"
    "/backups/b1/dependents" no_transformers fs1.

Definition gather (h : handler) (filters : list v1.BackupFilter)
  : Res (list v1.BackupFilter * error * FS) :=
  gatherResources h filters "/backups/b1" "/backups/b1/owners" "/backups/b1/dependents"
    no_transformers fs1.

Definition services : k8sv1.APIResource := resource "services" EmptyString true.

Definition core_gv : schema.GroupVersion :=
  {| schema.Group := EmptyString; schema.Version := "v1" |}.


(** The service of name [web], by exact name. *)
Definition web_by_name : v1.BackupFilter :=
  {| v1.ApiGroup := "v1"; v1.Kinds := []; v1.KindsRegex := "^services$";
     v1.ResourceNames := ["web"]; v1.ResourceNameRegex := EmptyString;
     v1.Namespaces := []; v1.NamespaceRegex := EmptyString |}.


Definition kube_re : regexp.re :=
  regexp.Cat regexp.Bol
    (regexp.Cat (regexp.Chr "k")
       (regexp.Cat (regexp.Chr "u")
          (regexp.Cat (regexp.Chr "b") (regexp.Cat (regexp.Chr "e") (regexp.Chr "-"))))).

(** *** Transformers *)

(** A transformer that shows what it was given, and one that fails. *)
Definition sealing : Transformer :=
  {| TransformToStorage := λ data aad, ("sealed for " +:+ aad +:+ ": " +:+ data, None) |}.

Definition keyless : Transformer :=
  {| TransformToStorage := λ data aad, (EmptyString, Some (ErrorString "no key")) |}.

(** The transformers of a configuration that names widgets only. *)
Definition widget_transformers (t : Transformer) : TransformerMap :=
  λ gr, if bool_decide (schema.grResource gr = "widgets")
           && bool_decide (schema.grGroup gr = "example.com")
        then Some t else None.

(** *** Other catalogs and trees *)

(** The encryption configuration cannot be read. *)
Definition unconfigured_handler : handler :=
  {| backupTemplates := λ _ _, ({| v1.BackupFilters := [] |}, None);
     backupEncryptionConfigs := λ _ _,
       (no_transformers, Some (ErrorString "backupencryptionconfig not found"));
     discoveryClient := λ _, ([], None);
     dynamicClient := λ _ _, ([], None) |}.

(** A regular file where the backup should go. *)
Definition fs_taken : FS := <["/backups/b1" := File "notes"]> fs0.

(** The tree of a run without the directory of the dependents. *)
Definition fs_owners_only : FS :=
  <["/backups/b1/owners" := Dir]> (<["/backups/b1" := Dir]> fs0).

(** A second service named [web], in another namespace. *)
Definition web_prod : Object :=
  object "Service" [ ("name", Str "web"); ("namespace", Str "prod") ].

(** Namespaces whose name starts with [kube-], by name. *)
Definition kube_by_name : v1.BackupFilter :=
  filter "v1" "^namespaces$" "^kube-" EmptyString.

(** The loop of [writeBackupObjects] from the tree [fs]. *)
Definition write_all (store : list Object) (resObjects : list nat)
    (res : k8sv1.APIResource) (gv : schema.GroupVersion) (transformerMap : TransformerMap)
    (fs : FS) : Res (list Object * error * FS) :=
  writeBackupObjects_loop store resObjects res gv "/backups/b1" "/backups/b1/owners"
    "/backups/b1/dependents" transformerMap fs.

(** The body of the loop on the object at position [i]. *)
Definition write_one (store : list Object) (i : nat)
    (res : k8sv1.APIResource) (gv : schema.GroupVersion) (transformerMap : TransformerMap)
    (fs : FS) : Res (list Object * error * FS) :=
  writeBackupObject store i res gv "/backups/b1" "/backups/b1/owners"
    "/backups/b1/dependents" transformerMap fs.

Definition error_of {A B} (r : Res (A * option B * FS)) : option B :=
  match r with
  | Done ((_, e), _) => e
  | Panic _ => None
  end.

(** The widgets [c], [e] and [f], and a filter without patterns. *)
Definition widget_handler : handler :=
  catalog_handler [ ("example.com/v1", [ widgets ]) ]
    [ ("widgets", ([widget_c; widget_e; widget_f], None)) ] [].

Definition all_widgets : v1.BackupFilter :=
  filter "example.com/v1" "." EmptyString EmptyString.

End Run.

(** * Properties *)

(** ** Strings *)

Lemma append_assoc (s1 s2 s3 : string) : (s1 +:+ s2) +:+ s3 = s1 +:+ (s2 +:+ s3).
Proof.
  induction s1 as [|a s1 IH]; [done|].
  change (String a ((s1 +:+ s2) +:+ s3) = String a (s1 +:+ (s2 +:+ s3))).
  by rewrite IH.
Qed.

Lemma HasSuffix_append (s t suffix : string) :
  GoString.HasSuffix t suffix → GoString.HasSuffix (s +:+ t) suffix.
Proof. intros [p ->]. exists (s +:+ p). by rewrite append_assoc. Qed.

(** Appending fragments that end with a separator: the result ends with
    it as soon as one fragment is appended or the start did. *)
Lemma foldl_fragments_suffix (prefix : string) (names : list string) (start : string) :
  names ≠ [] ∨ GoString.HasSuffix start "," →
  GoString.HasSuffix
    (foldl (λ sel ns, sel +:+ (prefix +:+ ns +:+ ",")) start names) ",".
Proof.
  revert start. induction names as [|ns names IH]; intros start Hstart.
  - by destruct Hstart.
  - cbn [foldl]. apply IH. right. apply HasSuffix_append.
    exists (prefix +:+ ns). by rewrite append_assoc.
Qed.

(** Unfolding the two monads. *)
Ltac unfold_monad :=
  unfold mret, mbind, Res_ret, Res_mbind, Res_bind, M_ret, M_mbind, lift in *;
  cbn beta iota in *.

(** A key that is none of the server-assigned fields. *)
Ltac not_volatile :=
  unfold volatile; rewrite !not_elem_of_cons;
  repeat split; solve [done | apply not_elem_of_nil].

Section Properties.
Context `{imports : Imports}.

(** ** The field selector *)

Lemma fieldSelector_suffix (res : k8sv1.APIResource) (filter : v1.BackupFilter) :
  v1.ResourceNames filter ≠ []
  ∨ (k8sv1.Namespaced res = true ∧ v1.Namespaces filter ≠ []) →
  GoString.HasSuffix (fieldSelector res filter) ",".
Proof.
  intros Hgiven. unfold fieldSelector.
  destruct (k8sv1.Namespaced res) eqn:Hnsd.
  - destruct (v1.Namespaces filter) as [|ns nss] eqn:Hns.
    + destruct Hgiven as [Hnames|[_ ?]]; [|done].
      destruct (v1.ResourceNames filter) as [|n names]; [done|].
      rewrite (bool_decide_true (0 < List.length (n :: names))) by (cbn; lia).
      rewrite (bool_decide_false (0 < List.length [])) by (cbn; lia).
      apply foldl_fragments_suffix. by left.
    + rewrite (bool_decide_true (0 < List.length (ns :: nss))) by (cbn; lia).
      apply foldl_fragments_suffix. by left.
  - destruct Hgiven as [Hnames|[? _]]; [|done].
    destruct (v1.ResourceNames filter) as [|n names]; [done|].
    rewrite (bool_decide_true (0 < List.length (n :: names))) by (cbn; lia).
    apply foldl_fragments_suffix. by left.
Qed.

(** C10. When the filter gives an exact resource name, or an exact
    namespace for a namespaced type, the field selector built on lines
    182-195 ends with a comma, and this is the selector the listing is
    called with: a listing that fails on every selector ending with a
    comma makes [gatherObjectsForResource] return that failure. *)
Theorem fieldSelector_trailing_comma
    (h : handler) (res : k8sv1.APIResource) (gv : schema.GroupVersion)
    (filter : v1.BackupFilter) (backupPath ownerDirPath dependentDirPath : string)
    (transformerMap : TransformerMap) (fs : FS) (e : error_value) :
  v1.ResourceNames filter ≠ []
  ∨ (k8sv1.Namespaced res = true ∧ v1.Namespaces filter ≠ []) →
  GoString.HasSuffix (fieldSelector res filter) ","
  ∧ ((∀ selector, GoString.HasSuffix selector "," →
        (dynamicClient h (schema.WithResource gv (k8sv1.Name res)) selector).2 = Some e) →
     gatherObjectsForResource h res gv filter backupPath ownerDirPath dependentDirPath
       transformerMap fs = Done (Some e, fs)).
Proof.
  intros Hgiven. pose proof (fieldSelector_suffix res filter Hgiven) as Hsuffix.
  split; [done|]. intros Hfails. specialize (Hfails _ Hsuffix).
  unfold gatherObjectsForResource.
  destruct (dynamicClient h _ _) as [resObjects err]. cbn in Hfails. by subst err.
Qed.

(** ** Sanitization *)

Lemma lookup_strip (metadata : gmap string value) (k : string) :
  strip metadata !! k = if bool_decide (k ∈ volatile) then None else metadata !! k.
Proof.
  unfold strip, volatile. cbn [foldl].
  case_bool_decide as Hk.
  - revert Hk. rewrite !elem_of_cons, elem_of_nil.
    intros [->|[->|[->|[->|[]]]]]; by simplify_map_eq.
  - rewrite !lookup_delete_ne; [done|..]; intros <-; apply Hk; set_solver.
Qed.

Lemma strip_idemp (metadata : gmap string value) : strip (strip metadata) = strip metadata.
Proof.
  apply map_eq. intros k. rewrite !lookup_strip. by case_bool_decide.
Qed.

Lemma index_strip (metadata : gmap string value) (k : string) :
  k ∉ volatile → index (strip metadata) k = index metadata k.
Proof. intros Hk. unfold index. rewrite lookup_strip. by rewrite bool_decide_false. Qed.

Lemma index_strip_uid (metadata : gmap string value) : index (strip metadata) "uid" = Nil.
Proof. unfold index. by rewrite lookup_strip. Qed.

Lemma index_insert_ne (metadata : gmap string value) (k k' : string) (v : value) :
  k ≠ k' → index (<[k := v]> metadata) k' = index metadata k'.
Proof. intros ?. unfold index. by rewrite lookup_insert_ne. Qed.

(** What [sanitize] returns: the stripped map, with the label recorded
    when there was a uid. *)
Lemma sanitize_Done (metadata metadata' : gmap string value) (objName : string) :
  sanitize metadata = Done (metadata', objName) →
  index metadata "name" = Str objName
  ∧ ∃ labelled, metadata' = strip labelled
      ∧ (labelled = metadata ∨ ∃ labels, labelled = <["labels" := labels]> metadata).
Proof.
  unfold sanitize. intros Hs.
  destruct (index metadata "name") as [| | |name| | |] eqn:Hname;
    cbn in Hs; unfold_monad; try done.
  destruct (is_nil (index metadata "uid")); cbn in Hs.
  { simplify_eq. split; [done|]. exists metadata. eauto. }
  destruct (index metadata "uid"); cbn in Hs; try done.
  destruct (is_nil (index metadata "labels")); cbn in Hs.
  { simplify_eq. split; [done|]. eexists. split; [done|]. right. eauto. }
  destruct (index metadata "labels"); cbn in Hs; try done.
  simplify_eq. split; [done|]. eexists. split; [done|]. right. eauto.
Qed.

(** C9. Sanitization is idempotent: run on the metadata it returned,
    [sanitize] returns the same metadata and name, and none of [uid],
    [resourceVersion], [generation] and [creationTimestamp] is a key
    of it. *)
Theorem sanitize_idempotent (metadata metadata' : gmap string value) (objName : string) :
  sanitize metadata = Done (metadata', objName) →
  sanitize metadata' = Done (metadata', objName)
  ∧ ∀ field, field ∈ volatile → metadata' !! field = None.
Proof.
  intros Hs. apply sanitize_Done in Hs as (Hname & labelled & -> & Hlabelled).
  split.
  - assert (index (strip labelled) "name" = Str objName) as Hname'.
    { rewrite index_strip by not_volatile.
      destruct Hlabelled as [->|[labels ->]]; [done|].
      by rewrite index_insert_ne. }
    unfold sanitize. rewrite Hname', index_strip_uid. cbn. unfold_monad.
    by rewrite strip_idemp.
  - intros field Hfield. rewrite lookup_strip. by rewrite bool_decide_true.
Qed.

(** ** Filter resolution *)

Lemma matchResources_compiled (filter : v1.BackupFilter) (re : Regexp)
    (resources resourceList : list k8sv1.APIResource) :
  regexp_Compile (v1.KindsRegex filter) = inr re →
  matchResources filter resources resourceList
  = (resourceList ++ List.filter (λ res, Regexp_MatchString re (k8sv1.Name res)) resources,
     None).
Proof.
  intros Hre. revert resourceList.
  induction resources as [|res resources IH]; intros resourceList; cbn.
  - by rewrite app_nil_r.
  - unfold regexp_MatchString. rewrite Hre.
    destruct (Regexp_MatchString re (k8sv1.Name res)); cbn.
    + rewrite IH. by rewrite <- app_assoc.
    + apply IH.
Qed.

Lemma matchResources_malformed (filter : v1.BackupFilter) (e : error_value)
    (res : k8sv1.APIResource) (resources resourceList : list k8sv1.APIResource) :
  regexp_Compile (v1.KindsRegex filter) = inl e →
  matchResources filter (res :: resources) resourceList = (resourceList, Some e).
Proof. intros He. cbn. unfold regexp_MatchString. by rewrite He. Qed.

Lemma gatherResourcesForGroupVersion_eq (h : handler) (filter : v1.BackupFilter) :
  gatherResourcesForGroupVersion h filter = resolve h filter.
Proof.
  unfold gatherResourcesForGroupVersion, resolve.
  destruct (discoveryClient h (v1.ApiGroup filter)) as [resources [e|]]; [done|].
  case_bool_decide; [done|].
  destruct (regexp_Compile (v1.KindsRegex filter)) as [e|re] eqn:Hre.
  - destruct resources as [|res resources]; [done|].
    by apply matchResources_malformed.
  - by rewrite (matchResources_compiled _ re).
Qed.

(** C7, as amended. Over the discovery result of the filter's group and
    version: when [kindsRegex] is the dot, resolution returns the whole
    discovery result; otherwise, for a pattern that compiles, it returns
    exactly the discovered types whose name matches, in discovery order
    (every resolved name matches and no discovered matching type is
    left out); and a malformed [kindsRegex] makes it fail with the
    compilation error when the discovery result is not empty. *)
Theorem gatherResourcesForGroupVersion_resolution (h : handler) (filter : v1.BackupFilter)
    (resources : list k8sv1.APIResource) :
  discoveryClient h (v1.ApiGroup filter) = (resources, None) →
  (v1.KindsRegex filter = "." →
   gatherResourcesForGroupVersion h filter = (resources, None))
  ∧ (v1.KindsRegex filter ≠ "." →
     ∀ re, regexp_Compile (v1.KindsRegex filter) = inr re →
       ∃ resolved,
         gatherResourcesForGroupVersion h filter = (resolved, None)
         ∧ resolved = List.filter (λ res, Regexp_MatchString re (k8sv1.Name res)) resources
         ∧ ∀ res, res ∈ resolved ↔
                  res ∈ resources ∧ Regexp_MatchString re (k8sv1.Name res) = true)
  ∧ (v1.KindsRegex filter ≠ "." →
     ∀ e, regexp_Compile (v1.KindsRegex filter) = inl e →
       resources ≠ [] →
       gatherResourcesForGroupVersion h filter = ([], Some e)).
Proof.
  intros Hdiscovery. unfold gatherResourcesForGroupVersion. rewrite Hdiscovery.
  split; [|split].
  - intros ->. by rewrite bool_decide_true.
  - intros Hdot re Hre. rewrite bool_decide_false by done.
    rewrite (matchResources_compiled _ re) by done. cbn [app].
    eexists. split; [done|]. split; [done|].
    intros res. rewrite !list_elem_of_In, filter_In. done.
  - intros Hdot e He Hne. rewrite bool_decide_false by done.
    destruct resources as [|res resources]; [done|].
    by apply matchResources_malformed.
Qed.

(** ** Object selection *)

Lemma count_matching (P : Object → bool) (items : list Object) (i j : nat) :
  count_occ Nat.eq_dec (matching P items i) j
  = if decide (i ≤ j)%nat then
      match items !! (j - i)%nat with
      | Some o => if P o then 1%nat else 0%nat
      | None => 0%nat
      end
    else 0%nat.
Proof.
  revert i. induction items as [|o items IH]; intros i; cbn [matching].
  - cbn. by destruct (decide _).
  - rewrite count_occ_app, IH.
    destruct (decide (i = j)) as [->|Hij].
    + rewrite Nat.sub_diag. cbn [lookup list_lookup].
      rewrite decide_False by lia. rewrite decide_True by lia.
      destruct (P o); cbn; [|done].
      by destruct (Nat.eq_dec j j).
    + assert (count_occ Nat.eq_dec (if P o then [i] else []) j = 0%nat) as ->.
      { destruct (P o); cbn; [|done]. by destruct (Nat.eq_dec i j). }
      destruct (decide (S i ≤ j)%nat) as [Hle|Hnle].
      * rewrite decide_True by lia.
        by replace (j - i)%nat with (S (j - S i)) by lia.
      * by rewrite decide_False by lia.
Qed.

Lemma elem_of_matching (P : Object → bool) (items : list Object) (j : nat) :
  j ∈ matching P items 0 ↔ ∃ o, items !! j = Some o ∧ P o = true.
Proof.
  rewrite list_elem_of_In, (count_occ_In Nat.eq_dec), count_matching.
  rewrite decide_True by lia. rewrite Nat.sub_0_r.
  destruct (items !! j) as [o|]; [destruct (P o) eqn:HP|].
  - split; [eauto|lia].
  - split; [lia|]. intros (o' & ? & ?). simplify_eq. congruence.
  - split; [lia|]. by intros (o' & ? & ?).
Qed.

Lemma stringAt_index (k : string) (o : Object) (s : string) :
  stringAt k o = Some s →
  ∃ m, assert_map (index o "metadata") = Done m ∧ assert_string (index m k) = Done s.
Proof.
  unfold stringAt, metadataOf, index. intros Hs.
  destruct (o !! "metadata") as [[]|]; cbn in *; try done.
  eexists. split; [done|].
  destruct (_ !! k) as [[]|]; cbn in *; by simplify_eq.
Qed.

Lemma filterByName_spec (regex : string) (re : Regexp) (items : list Object)
    (i : nat) (filteredObjects : list nat) :
  regexp_Compile regex = inr re →
  Forall (λ o, is_Some (nameOf o)) items →
  filterByName regex items i filteredObjects
  = Done (filteredObjects ++ matching (fieldMatches "name" re) items i, None).
Proof.
  intros Hre Hitems. revert i filteredObjects.
  induction Hitems as [|o items [name Hname] _ IH]; intros i filteredObjects; cbn.
  - by rewrite app_nil_r.
  - unfold fieldMatches at 1. unfold nameOf in Hname. rewrite Hname.
    apply stringAt_index in Hname as (m & Hm & Hname).
    rewrite Hm. unfold_monad. rewrite Hname.
    unfold regexp_MatchString. rewrite Hre.
    destruct (Regexp_MatchString re name); cbn.
    + rewrite IH. by rewrite <- app_assoc.
    + apply IH.
Qed.



Lemma assert_map_metadata (resObj : Object) (metadata : gmap string value) :
  metadataOf resObj = Some metadata →
  assert_map (index resObj "metadata") = Done metadata.
Proof.
  unfold metadataOf, index. intros Hmeta.
  destruct (resObj !! "metadata") as [[]|]; cbn; by simplify_eq.
Qed.

(** X23. With [namespaceRegex] set, selection panics on a first listed
    object without [metadata.namespace], whatever the resource type: the
    pass of lines 218-232 does not look at [res.Namespaced]. *)
Lemma filterObjects_panics_without_namespace (res : k8sv1.APIResource)
    (filter : v1.BackupFilter) (o : Object) (items : list Object)
    (metadata : gmap string value) :
  v1.ResourceNameRegex filter = EmptyString →
  v1.NamespaceRegex filter ≠ EmptyString →
  metadataOf o = Some metadata →
  metadata !! "namespace" = None →
  filterObjects res filter (o :: items)
  = Panic "interface conversion: interface {} is not string".
Proof.
  intros Hname Hns Hmeta Hnone. unfold filterObjects.
  rewrite (bool_decide_false (v1.ResourceNameRegex filter ≠ EmptyString))
    by (by intros Hne).
  rewrite (bool_decide_true (v1.NamespaceRegex filter ≠ EmptyString)) by done.
  unfold_monad. cbn [filterByNamespace].
  rewrite (assert_map_metadata _ _ Hmeta). unfold_monad.
  unfold index. by rewrite Hnone.
Qed.

(** ** Writing *)

(** [createResourceDir] always returns, and changes the tree only by a
    directory at a key that was free. *)
Lemma createResourceDir_Done (path : string) (fs : FS) :
  ∃ err fs', createResourceDir path fs = Done (err, fs')
             ∧ (fs' = fs
                ∨ (fs !! filepath.Clean path = None
                   ∧ fs' = <[filepath.Clean path := Dir]> fs)).
Proof.
  unfold createResourceDir, os.Stat, os.Mkdir, os.parent_error. unfold_monad.
  destruct (fs !! filepath.Clean path) as [[|data]|] eqn:Hpath; cbn; [eauto..|].
  rewrite Hpath.
  destruct (fs !! filepath.Dir (filepath.Clean path)) as [[|data]|]; cbn; eauto 6.
Qed.

Lemma writeToBackup_Done (resource : Object) (backupPath filename : string)
    (transformer : option Transformer) (aad : string) (fs fs' : FS) :
  writeToBackup resource backupPath filename transformer aad fs = Done (None, fs') →
  ∃ data, encode resource transformer aad = (data, None)
          ∧ fs' = <[fileKey backupPath filename := File data]> fs.
Proof.
  unfold writeToBackup, os.Create, os.Write, os.Close, os.parent_error, fileKey.
  unfold_monad. cbn [os.path].
  set (key := filepath.Clean _).
  destruct (encode resource transformer aad) as [data [e|]].
  { intros Hw. destruct (fs !! key) as [[|d]|]; try done;
      destruct (fs !! filepath.Dir key) as [[|d']|]; done. }
  intros Hw. exists data. split; [done|].
  destruct (fs !! key) as [[|d]|]; try done;
    destruct (fs !! filepath.Dir key) as [[|d']|]; try done;
    rewrite lookup_insert_eq in Hw; simplify_eq; by rewrite insert_insert_eq.
Qed.

(** A successful [createResourceDir] and [writeToBackup] under
    [resourcePath]: the file holds the encoded object, and beside it
    only the directory may be new. *)
Lemma writeUnder_Done (resourcePath : string) (resource : Object) (objName : string)
    (transformer : option Transformer) (aad : string) (fs fs' : FS) :
  writeUnder resourcePath resource objName transformer aad fs = Done (None, fs') →
  ∃ data, encode resource transformer aad = (data, None)
    ∧ fs' !! fileKey resourcePath objName = Some (File data)
    ∧ (∀ p, p ≠ filepath.Clean resourcePath → p ≠ fileKey resourcePath objName →
            fs' !! p = fs !! p)
    ∧ (∀ key, is_file fs key → is_file fs' key).
Proof.
  unfold writeUnder. unfold_monad.
  destruct (createResourceDir_Done resourcePath fs) as (err & fs1 & -> & Hfs1).
  destruct err as [e|]; [done|]. intros Hw.
  apply writeToBackup_Done in Hw as (data & Hdata & ->).
  exists data. split; [done|]. split; [by rewrite lookup_insert_eq|]. split.
  - intros p Hdir Hfile. rewrite lookup_insert_ne by done.
    destruct Hfs1 as [->|[_ ->]]; [done|]. by rewrite lookup_insert_ne.
  - intros key [data0 Hkey]. unfold is_file.
    destruct (decide (fileKey resourcePath objName = key)) as [<-|Hne].
    { rewrite lookup_insert_eq. eauto. }
    rewrite lookup_insert_ne by done.
    destruct Hfs1 as [->|[Hfree ->]]; [eauto|].
    rewrite lookup_insert_ne; [eauto|]. intros <-. by rewrite Hfree in Hkey.
Qed.

Lemma sanitize_index (metadata metadata' : gmap string value) (objName k : string) :
  sanitize metadata = Done (metadata', objName) →
  k ∉ volatile → k ≠ "labels" →
  index metadata' k = index metadata k.
Proof.
  intros Hs Hk Hlabels. apply sanitize_Done in Hs as (_ & labelled & -> & Hlabelled).
  rewrite index_strip by done.
  destruct Hlabelled as [->|[labels ->]]; [done|]. by rewrite index_insert_ne.
Qed.

(** The body of the loop on an object that is not skipped, when it
    returns without error: the object is sanitized in place, written
    under its own directory if its type is privileged, and then under
    its partition. *)
Lemma writeBackupObject_Done (store store' : list Object) (i : nat) (resObj : Object)
    (metadata : gmap string value) (res : k8sv1.APIResource) (gv : schema.GroupVersion)
    (backupPath ownerDirPath dependentDirPath : string) (transformerMap : TransformerMap)
    (fs fs' : FS) :
  store !! i = Some resObj →
  metadataOf resObj = Some metadata →
  skipObject metadata = false →
  writeBackupObject store i res gv backupPath ownerDirPath dependentDirPath
    transformerMap fs = Done ((store', None), fs') →
  ∃ metadata' objName fsp,
    sanitize metadata = Done (metadata', objName)
    ∧ store' = <[i := <["metadata" := MapIface metadata']> resObj]> store
    ∧ (if privileged res then
         writeUnder (filepath.Join [backupPath; k8sv1.Name res])
           (<["metadata" := MapIface metadata']> resObj) objName
           (transformerMap
              (schema.ParseGroupResource (k8sv1.Name res +:+ "." +:+ k8sv1.Group res)))
           objName fs = Done (None, fsp)
       else fsp = fs)
    ∧ writeUnder
        (partitionPath (partitionOf metadata ownerDirPath dependentDirPath) res gv)
        (<["metadata" := MapIface metadata']> resObj) objName
        (transformerMap
           (schema.ParseGroupResource (k8sv1.Name res +:+ "." +:+ k8sv1.Group res)))
        objName fsp = Done (None, fs').
Proof.
  intros Hi Hmeta Hskip. unfold writeBackupObject. rewrite Hi.
  assert (assert_map (index resObj "metadata") = Done metadata) as ->.
  { unfold metadataOf in Hmeta. unfold index.
    destruct (resObj !! "metadata") as [[]|]; cbn; by simplify_eq. }
  unfold_monad. rewrite Hskip.
  destruct (sanitize metadata) as [[metadata' objName]|msg] eqn:Hs; [|done].
  unfold partitionOf.
  rewrite <- (sanitize_index _ _ _ "ownerReferences" Hs) by (done || not_volatile).
  set (resObj' := <["metadata" := MapIface metadata']> resObj).
  set (t := transformerMap _).
  intros Hw. exists metadata', objName.
  destruct (privileged res).
  - destruct (writeUnder (filepath.Join _) resObj' objName t objName fs)
      as [[[e|] fsp]|msg] eqn:Hp; try done.
    exists fsp.
    destruct (is_nil (index metadata' "ownerReferences"));
      destruct (writeUnder _ resObj' objName t objName fsp) as [[err fs'']|msg] eqn:Hpart;
      simplify_eq; by repeat split.
  - exists fs.
    destruct (is_nil (index metadata' "ownerReferences"));
      destruct (writeUnder _ resObj' objName t objName fs) as [[err fs'']|msg] eqn:Hpart;
      simplify_eq; by repeat split.
Qed.

Lemma is_nil_index (metadata : gmap string value) (k : string) :
  is_nil (index metadata k) = true ↔ metadata !! k = None ∨ metadata !! k = Some Nil.
Proof.
  unfold index. destruct (metadata !! k) as [[]|]; cbn; split; try done; eauto.
  all: by intros [?|?].
Qed.

(** ** The tree after the loop *)

Lemma sanitize_lookup (metadata metadata' : gmap string value) (objName k : string) :
  sanitize metadata = Done (metadata', objName) →
  k ∉ volatile → k ≠ "labels" →
  metadata' !! k = metadata !! k.
Proof.
  intros Hs Hk Hlabels. apply sanitize_Done in Hs as (_ & labelled & -> & Hlabelled).
  rewrite lookup_strip. rewrite bool_decide_false by done.
  destruct Hlabelled as [->|[labels ->]]; [done|]. by rewrite lookup_insert_ne.
Qed.

(** Sanitization changes none of what the loop reads to skip, name and
    place an object. *)
Lemma sanitized_same (resObj : Object) (metadata metadata' : gmap string value)
    (objName : string) (ownerDirPath dependentDirPath : string) :
  metadataOf resObj = Some metadata →
  sanitize metadata = Done (metadata', objName) →
  metadataOf (<["metadata" := MapIface metadata']> resObj) = Some metadata'
  ∧ skipObject metadata' = skipObject metadata
  ∧ nameOf (<["metadata" := MapIface metadata']> resObj) = nameOf resObj
  ∧ partitionOf metadata' ownerDirPath dependentDirPath
    = partitionOf metadata ownerDirPath dependentDirPath.
Proof.
  intros Hmeta Hs.
  assert (metadataOf (<["metadata" := MapIface metadata']> resObj) = Some metadata')
    as Hmeta' by (unfold metadataOf; by rewrite lookup_insert_eq).
  split; [done|]. split; [|split].
  - unfold skipObject, has_key.
    rewrite (sanitize_lookup _ _ _ "deletionTimestamp" Hs) by (done || not_volatile).
    by rewrite (sanitize_lookup _ _ _ "finalizers" Hs) by (done || not_volatile).
  - unfold nameOf, stringAt. rewrite Hmeta, Hmeta'. cbn.
    by rewrite (sanitize_lookup _ _ _ "name" Hs) by (done || not_volatile).
  - unfold partitionOf.
    by rewrite (sanitize_index _ _ _ "ownerReferences" Hs) by (done || not_volatile).
Qed.

(** The body of the loop on a skipped object. *)
Lemma writeBackupObject_skipped (store : list Object) (i : nat) (resObj : Object)
    (metadata : gmap string value) (res : k8sv1.APIResource) (gv : schema.GroupVersion)
    (backupPath ownerDirPath dependentDirPath : string) (transformerMap : TransformerMap)
    (fs : FS) :
  store !! i = Some resObj →
  metadataOf resObj = Some metadata →
  skipObject metadata = true →
  writeBackupObject store i res gv backupPath ownerDirPath dependentDirPath
    transformerMap fs = Done ((store, None), fs).
Proof.
  intros Hi Hmeta Hskip. unfold writeBackupObject.
  rewrite Hi, (assert_map_metadata _ _ Hmeta). unfold_monad. by rewrite Hskip.
Qed.

(** One round of the loop that returns without error keeps the files of
    the tree, and keeps, for every listed object, what decides whether
    and where it is written. *)
Lemma writeBackupObject_keeps (store store' : list Object) (i : nat)
    (res : k8sv1.APIResource) (gv : schema.GroupVersion)
    (backupPath ownerDirPath dependentDirPath : string) (transformerMap : TransformerMap)
    (fs fs' : FS) :
  writeBackupObject store i res gv backupPath ownerDirPath dependentDirPath
    transformerMap fs = Done ((store', None), fs') →
  (∀ key, is_file fs key → is_file fs' key)
  ∧ ∀ j resObj metadata,
      store !! j = Some resObj → metadataOf resObj = Some metadata →
      ∃ resObj' metadata',
        store' !! j = Some resObj'
        ∧ metadataOf resObj' = Some metadata'
        ∧ skipObject metadata' = skipObject metadata
        ∧ nameOf resObj' = nameOf resObj
        ∧ partitionOf metadata' ownerDirPath dependentDirPath
          = partitionOf metadata ownerDirPath dependentDirPath.
Proof.
  intros Hw.
  destruct (store !! i) as [resObj0|] eqn:Hi;
    [|by unfold writeBackupObject in Hw; rewrite Hi in Hw].
  destruct (metadataOf resObj0) as [metadata0|] eqn:Hmeta0.
  2:{ unfold writeBackupObject in Hw. rewrite Hi in Hw. unfold_monad.
      unfold metadataOf in Hmeta0. unfold index in Hw.
      by destruct (resObj0 !! "metadata") as [[]|]. }
  destruct (skipObject metadata0) eqn:Hskip.
  - rewrite (writeBackupObject_skipped store i resObj0 metadata0) in Hw by done.
    injection Hw as <- <-.
    split; [done|]. intros j resObj metadata Hj Hmeta. by exists resObj, metadata.
  - destruct (writeBackupObject_Done _ _ _ _ _ _ _ _ _ _ _ _ _ Hi Hmeta0 Hskip Hw)
      as (metadata0' & objName & fsp & Hs & -> & Hp & Hpart).
    apply writeUnder_Done in Hpart as (_ & _ & _ & _ & Hfiles).
    split.
    + intros key Hkey. apply Hfiles. destruct (privileged res); [|by subst fsp].
      apply writeUnder_Done in Hp as (_ & _ & _ & _ & Hfiles'). by apply Hfiles'.
    + intros j resObj metadata Hj Hmeta.
      destruct (decide (i = j)) as [<-|Hne].
      * rewrite Hi in Hj. injection Hj as <-. rewrite Hmeta0 in Hmeta. injection Hmeta as <-.
        destruct (sanitized_same resObj0 metadata0 metadata0' objName ownerDirPath
                    dependentDirPath Hmeta0 Hs) as (? & ? & ? & ?).
        eexists _, _. split; [|done].
        apply list_lookup_insert_eq. by eapply lookup_lt_Some.
      * exists resObj, metadata. by rewrite list_lookup_insert_ne.
Qed.

Lemma writeBackupObjects_loop_keeps_files (res : k8sv1.APIResource)
    (gv : schema.GroupVersion) (backupPath ownerDirPath dependentDirPath : string)
    (transformerMap : TransformerMap) (resObjects : list nat) :
  ∀ (store store' : list Object) (fs fs' : FS),
    writeBackupObjects_loop store resObjects res gv backupPath ownerDirPath
      dependentDirPath transformerMap fs = Done ((store', None), fs') →
    ∀ key, is_file fs key → is_file fs' key.
Proof.
  induction resObjects as [|i0 resObjects IH]; intros store store' fs fs' Hloop.
  { cbn in Hloop. unfold_monad. by injection Hloop as <- <-. }
  cbn [writeBackupObjects_loop] in Hloop. unfold_monad.
  destruct (writeBackupObject store i0 res gv backupPath ownerDirPath dependentDirPath
              transformerMap fs) as [[[store1 [e|]] fs1]|msg] eqn:Hbody; try done.
  destruct (writeBackupObject_keeps _ _ _ _ _ _ _ _ _ _ _ Hbody) as [Hfiles _].
  intros key Hkey. eapply IH; [done|]. by apply Hfiles.
Qed.

(** After a loop of [writeBackupObjects] that returns without error,
    every selected object that is not finalizing without finalizers has
    its file in the tree, under its partition. *)
Lemma retained_objects_are_in_the_tree (res : k8sv1.APIResource) (gv : schema.GroupVersion)
    (backupPath ownerDirPath dependentDirPath : string) (transformerMap : TransformerMap)
    (resObjects : list nat) :
  ∀ (store store' : list Object) (fs fs' : FS),
    writeBackupObjects_loop store resObjects res gv backupPath ownerDirPath
      dependentDirPath transformerMap fs = Done ((store', None), fs') →
    ∀ i resObj metadata,
      i ∈ resObjects →
      store !! i = Some resObj → metadataOf resObj = Some metadata →
      skipObject metadata = false →
      ∃ objName,
        nameOf resObj = Some objName
        ∧ is_file fs'
            (fileKey
               (partitionPath (partitionOf metadata ownerDirPath dependentDirPath) res gv)
               objName).
Proof.
  induction resObjects as [|i0 resObjects IH]; intros store store' fs fs' Hloop.
  { intros i resObj metadata Hi. by apply elem_of_nil in Hi. }
  cbn [writeBackupObjects_loop] in Hloop. unfold_monad.
  destruct (writeBackupObject store i0 res gv backupPath ownerDirPath dependentDirPath
              transformerMap fs) as [[[store1 [e|]] fs1]|msg] eqn:Hbody; try done.
  intros i resObj metadata Hin Hi Hmeta Hskip.
  apply elem_of_cons in Hin as [->|Hin].
  - destruct (writeBackupObject_Done _ _ _ _ _ _ _ _ _ _ _ _ _ Hi Hmeta Hskip Hbody)
      as (metadata' & objName & fsp & Hs & _ & _ & Hpart).
    apply writeUnder_Done in Hpart as (data & _ & Hfile & _ & _).
    exists objName. split.
    + apply sanitize_Done in Hs as [Hname _].
      unfold nameOf, stringAt. rewrite Hmeta. cbn.
      unfold index in Hname. by destruct (metadata !! "name") as [[]|]; simplify_eq/=.
    + eapply writeBackupObjects_loop_keeps_files; [done|]. by exists data.
  - destruct (writeBackupObject_keeps _ _ _ _ _ _ _ _ _ _ _ Hbody) as [_ Hsame].
    destruct (Hsame i resObj metadata Hi Hmeta)
      as (resObj1 & metadata1 & Hi1 & Hmeta1 & Hskip1 & Hname1 & Hpart1).
    rewrite <- Hname1, <- Hpart1.
    eapply IH; [done..|]. by rewrite Hskip1.
Qed.

(** C2, as amended. A retained object of a resource type that is not
    privileged is written under exactly one of the two partitions:
    under [owners/] when [metadata.ownerReferences] is absent or null,
    under [dependents/] when the key holds anything else, an empty
    list included. The file holds the encoded sanitized object, and
    apart from it and the directory of its resource type the tree is
    as before. *)
Theorem placement_by_ownerReferences (store store' : list Object) (i : nat)
    (resObj : Object) (metadata : gmap string value) (res : k8sv1.APIResource)
    (gv : schema.GroupVersion) (backupPath ownerDirPath dependentDirPath : string)
    (transformerMap : TransformerMap) (fs fs' : FS) :
  store !! i = Some resObj →
  metadataOf resObj = Some metadata →
  skipObject metadata = false →
  privileged res = false →
  writeBackupObject store i res gv backupPath ownerDirPath dependentDirPath
    transformerMap fs = Done ((store', None), fs') →
  ∃ partition objName sanitized data,
    (metadata !! "ownerReferences" = None ∨ metadata !! "ownerReferences" = Some Nil →
     partition = ownerDirPath)
    ∧ (∀ v, metadata !! "ownerReferences" = Some v → v ≠ Nil →
            partition = dependentDirPath)
    ∧ nameOf resObj = Some objName
    ∧ store' !! i = Some sanitized
    ∧ encode sanitized
        (transformerMap
           (schema.ParseGroupResource (k8sv1.Name res +:+ "." +:+ k8sv1.Group res)))
        objName = (data, None)
    ∧ fs' !! fileKey (partitionPath partition res gv) objName = Some (File data)
    ∧ ∀ p, p ≠ filepath.Clean (partitionPath partition res gv) →
           p ≠ fileKey (partitionPath partition res gv) objName →
           fs' !! p = fs !! p.
Proof.
  intros Hi Hmeta Hskip Hpriv Hw.
  destruct (writeBackupObject_Done _ _ _ _ _ _ _ _ _ _ _ _ _ Hi Hmeta Hskip Hw)
    as (metadata' & objName & fsp & Hs & -> & Hp & Hpart).
  rewrite Hpriv in Hp. subst fsp.
  apply writeUnder_Done in Hpart as (data & Hdata & Hfile & Hframe & _).
  exists (partitionOf metadata ownerDirPath dependentDirPath), objName,
    (<["metadata" := MapIface metadata']> resObj), data.
  split; [|split; [|split; [|split; [|done]]]].
  - intros Hnil%is_nil_index. unfold partitionOf. by rewrite Hnil.
  - intros v Hv Hne. unfold partitionOf, index. rewrite Hv. cbn. by destruct v.
  - apply sanitize_Done in Hs as [Hname _].
    unfold nameOf, stringAt. rewrite Hmeta. cbn.
    unfold index in Hname. by destruct (metadata !! "name") as [[]|]; simplify_eq/=.
  - apply list_lookup_insert_eq. by eapply lookup_lt_Some.
Qed.



(** ** The realized filters *)

Lemma foldl_names (kinds : list string) (resourceList : list k8sv1.APIResource) :
  foldl (λ kinds res, kinds ++ [k8sv1.Name res]) kinds resourceList
  = kinds ++ map k8sv1.Name resourceList.
Proof.
  revert kinds. induction resourceList as [|res resourceList IH]; intros kinds; cbn.
  - by rewrite app_nil_r.
  - rewrite IH. by rewrite <- app_assoc.
Qed.

Lemma insert_at_drop {A} (l : list A) (ind : nat) (x y : A) (rest : list A) :
  drop ind l = x :: rest →
  <[ind := y]> l = take ind l ++ y :: rest
  ∧ take (S ind) (take ind l ++ y :: rest) = take ind l ++ [y]
  ∧ drop (S ind) (take ind l ++ y :: rest) = rest.
Proof.
  intros Hdrop.
  assert (ind < List.length l)%nat as Hlt.
  { destruct (decide (ind < List.length l)%nat); [done|].
    rewrite drop_ge in Hdrop by lia. done. }
  assert (List.length (take ind l) = ind) as Hlen by (rewrite length_take; lia).
  split; [|split].
  - rewrite <- (take_drop ind l) at 1. rewrite Hdrop.
    rewrite insert_app_r_alt by lia. by rewrite Hlen, Nat.sub_diag.
  - rewrite take_app_ge by lia. rewrite Hlen.
    by replace (S ind - ind)%nat with 1%nat by lia.
  - rewrite drop_app_ge by lia. rewrite Hlen.
    by replace (S ind - ind)%nat with 1%nat by lia.
Qed.

(** The loop over the filters: the filters visited before the loop
    ended are realized, the others are as they were; a loop that ends
    without error has visited them all, and resolved each. *)
Lemma gatherResources_loop_Done (h : handler) (pending : list v1.BackupFilter) :
  ∀ (ind : nat) (filters filters' : list v1.BackupFilter)
    (backupPath ownerDirPath dependentDirPath : string) (transformerMap : TransformerMap)
    (err : error) (fs fs' : FS),
    drop ind filters = pending →
    gatherResources_loop h pending ind filters backupPath ownerDirPath dependentDirPath
      transformerMap fs = Done ((filters', err), fs') →
    ∃ k, filters' = take ind filters ++ map (realized h) (take k pending) ++ drop k pending
         ∧ (err = None →
            k = List.length pending
            ∧ Forall (λ f, (gatherResourcesForGroupVersion h f).2 = None) pending).
Proof.
  induction pending as [|filter pending IH];
    intros ind filters filters' bp od dd tm err fs fs' Hdrop Hloop.
  - cbn in Hloop. unfold_monad. injection Hloop as <- <- <-. exists 0%nat. cbn.
    rewrite app_nil_r. rewrite <- (take_drop ind filters) at 1.
    rewrite Hdrop, app_nil_r. by split.
  - cbn [gatherResources_loop] in Hloop.
    destruct (gatherResourcesForGroupVersion h filter) as [resourceList [e|]] eqn:Hres.
    { unfold_monad. injection Hloop as <- <- <-. exists 0%nat. cbn.
      rewrite <- (take_drop ind filters) at 1. by rewrite Hdrop. }
    assert ((if bool_decide (List.length (v1.Kinds filter) = 0) then
               (v1.set_Kinds
                  (foldl (λ kinds res, kinds ++ [k8sv1.Name res]) (v1.Kinds filter)
                     resourceList) filter,
                <[ind := v1.set_Kinds
                    (foldl (λ kinds res, kinds ++ [k8sv1.Name res]) (v1.Kinds filter)
                       resourceList) filter]> filters)
             else (filter, filters))
            = (realized h filter, take ind filters ++ realized h filter :: pending))
      as Hrealized.
    { unfold realized. rewrite Hres. cbn [fst]. case_bool_decide as Hkinds.
      - destruct (v1.Kinds filter) eqn:Hk; [|done].
        rewrite foldl_names. cbn [app]. f_equal.
        by apply (insert_at_drop filters ind filter).
      - f_equal. rewrite <- (take_drop ind filters) at 1. by rewrite Hdrop. }
    rewrite Hrealized in Hloop. clear Hrealized.
    set (filters1 := take ind filters ++ realized h filter :: pending) in *.
    assert (∀ k, take ind filters ++ map (realized h) (take (S k) (filter :: pending))
                   ++ drop (S k) (filter :: pending)
                 = take (S ind) filters1 ++ map (realized h) (take k pending)
                   ++ drop k pending) as Hstep.
    { intros k. unfold filters1.
      destruct (insert_at_drop filters ind filter (realized h filter) pending Hdrop)
        as (_ & -> & _).
      cbn. by rewrite <- app_assoc. }
    destruct (schema.ParseGroupVersion (v1.ApiGroup (realized h filter))) as [gv [e|]].
    { unfold_monad. injection Hloop as <- <- <-. exists 1%nat. split; [|done].
      unfold filters1. cbn. by rewrite ?drop_0. }
    unfold_monad.
    destruct (gatherResources_types h resourceList gv (realized h filter) bp od dd tm fs)
      as [[[e|] fs1]|msg]; [..|done].
    { injection Hloop as <- <- <-. exists 1%nat. split; [|done].
      unfold filters1. cbn. by rewrite ?drop_0. }
    apply IH in Hloop as (k & -> & Hk).
    + exists (S k). split; [by rewrite Hstep|].
      intros Herr. destruct (Hk Herr) as [-> Hall]. split; [done|].
      constructor; [by rewrite Hres|done].
    + unfold filters1.
      by destruct (insert_at_drop filters ind filter (realized h filter) pending Hdrop)
        as (_ & _ & ->).
Qed.

(** C3, as amended. After a run of [gatherResources] that returns
    without error, a filter whose kinds were empty holds the names of
    all the resource types its resolution gave, in discovery order:
    every discovered type when [kindsRegex] is the dot, else every
    discovered type whose name matches [kindsRegex], whether or not
    [skipBackup] lets the type be backed up. *)
Theorem realized_kinds_are_resolved_names (h : handler)
    (filters filters' : list v1.BackupFilter)
    (backupPath ownerDirPath dependentDirPath : string) (transformerMap : TransformerMap)
    (fs fs' : FS) :
  gatherResources h filters backupPath ownerDirPath dependentDirPath transformerMap fs
  = Done ((filters', None), fs') →
  ∀ ind filter,
    filters !! ind = Some filter →
    v1.Kinds filter = [] →
    ∃ resourceList,
      resolve h filter = (resourceList, None)
      ∧ filters' !! ind = Some (v1.set_Kinds (map k8sv1.Name resourceList) filter).
Proof.
  unfold gatherResources. intros Hrun ind filter Hind Hkinds.
  apply gatherResources_loop_Done in Hrun as (k & -> & Hk); [|done].
  destruct (Hk eq_refl) as [-> Hall]. clear Hk.
  rewrite take_0, firstn_all, drop_all, app_nil_r. cbn [app].
  rewrite list_lookup_fmap, Hind. cbn.
  rewrite Forall_forall in Hall.
  assert (filter ∈ filters) as Hin by (by eapply list_elem_of_lookup_2).
  specialize (Hall _ Hin). rewrite gatherResourcesForGroupVersion_eq in Hall.
  destruct (resolve h filter) as [resourceList err] eqn:Hres. cbn in Hall. subst err.
  exists resourceList. split; [done|].
  unfold realized. rewrite Hkinds. cbn.
  by rewrite gatherResourcesForGroupVersion_eq, Hres.
Qed.

Lemma Namespaces_realized (h : handler) (filter : v1.BackupFilter) :
  v1.Namespaces (realized h filter) = v1.Namespaces filter.
Proof. unfold realized. by case_bool_decide. Qed.

(** No run of [gatherResources], failed or not, changes the namespaces
    of a filter of the template. *)
Lemma gatherResources_keeps_Namespaces (h : handler)
    (filters filters' : list v1.BackupFilter)
    (backupPath ownerDirPath dependentDirPath : string) (transformerMap : TransformerMap)
    (err : error) (fs fs' : FS) :
  gatherResources h filters backupPath ownerDirPath dependentDirPath transformerMap fs
  = Done ((filters', err), fs') →
  map v1.Namespaces filters' = map v1.Namespaces filters.
Proof.
  unfold gatherResources. intros Hrun.
  apply gatherResources_loop_Done in Hrun as (k & -> & _); [|done].
  rewrite take_0. cbn [app]. rewrite map_app, map_map.
  rewrite (map_ext _ v1.Namespaces) by apply Namespaces_realized.
  by rewrite <- map_app, take_drop.
Qed.

End Properties.

(** ** Concrete runs *)

Section Runs.
#[local] Existing Instance run_imports.

(** C1. The gather phase fails (listing secrets is refused), and yet
    [OnBackupChange] writes [filters.json] and returns no error: the
    error assigned on line 90 is overwritten on line 92. *)
Theorem OnBackupChange_hides_gather_failure :
  snd <$> Run.value_of (Run.gather (Run.refusing_handler [Run.everything]) [Run.everything])
  = Some (Some Run.forbidden)
  ∧ Run.value_of
      (OnBackupChange (Run.refusing_handler [Run.everything]) Run.backup Run.fs0)
    = Some (Run.backup, None)
  ∧ is_Some
      (Run.fs_of
         (OnBackupChange (Run.refusing_handler [Run.everything]) Run.backup Run.fs0)
       !! "/backups/b1/filters.json").
Proof.
  split; [|split].
  - vm_compute. reflexivity.
  - vm_compute. reflexivity.
  - vm_compute. eauto.
Qed.

(** C2, counterexample. The widget [a] carries [ownerReferences: []]:
    it is written under [dependents/], and nothing is written for it
    under [owners/]. *)
Lemma empty_ownerReferences_goes_to_dependents :
  Run.metadata_of Run.widget_a !! "ownerReferences" = Some (Slice [])
  ∧ snd <$> Run.value_of (Run.write_widget Run.widget_a) = Some None
  ∧ is_Some (Run.fs_of (Run.write_widget Run.widget_a)
             !! "/backups/b1/dependents/widgets.example.com#v1/a.json")
  ∧ Run.fs_of (Run.write_widget Run.widget_a)
    !! "/backups/b1/owners/widgets.example.com#v1/a.json" = None
  ∧ Run.fs_of (Run.write_widget Run.widget_a)
    !! "/backups/b1/owners/widgets.example.com#v1" = None.
Proof.
  repeat split; try (vm_compute; reflexivity). vm_compute. eauto.
Qed.

(** The widget [c], without the key, goes to [owners/]. *)
Lemma placement_by_ownerReferences_witness :
  [Run.widget_c] !! 0%nat = Some Run.widget_c
  ∧ metadataOf Run.widget_c = Some (Run.metadata_of Run.widget_c)
  ∧ skipObject (Run.metadata_of Run.widget_c) = false
  ∧ privileged Run.widgets = false
  ∧ ∃ partition objName sanitized data,
      (Run.metadata_of Run.widget_c !! "ownerReferences" = None
       ∨ Run.metadata_of Run.widget_c !! "ownerReferences" = Some Nil →
       partition = "/backups/b1/owners")
      ∧ (∀ v, Run.metadata_of Run.widget_c !! "ownerReferences" = Some v → v ≠ Nil →
              partition = "/backups/b1/dependents")
      ∧ nameOf Run.widget_c = Some objName
      ∧ Run.store_of (Run.write_widget Run.widget_c) !! 0%nat = Some sanitized
      ∧ encode sanitized
          (Run.no_transformers
             (schema.ParseGroupResource
                (k8sv1.Name Run.widgets +:+ "." +:+ k8sv1.Group Run.widgets)))
          objName = (data, None)
      ∧ Run.fs_of (Run.write_widget Run.widget_c)
        !! fileKey (partitionPath partition Run.widgets Run.widgets_gv) objName
        = Some (File data)
      ∧ ∀ p, p ≠ filepath.Clean (partitionPath partition Run.widgets Run.widgets_gv) →
             p ≠ fileKey (partitionPath partition Run.widgets Run.widgets_gv) objName →
             Run.fs_of (Run.write_widget Run.widget_c) !! p = Run.fs1 !! p.
Proof.
  split; [reflexivity|]. split; [vm_compute; reflexivity|].
  split; [vm_compute; reflexivity|]. split; [reflexivity|].
  apply (placement_by_ownerReferences [Run.widget_c]
           (Run.store_of (Run.write_widget Run.widget_c)) 0 Run.widget_c
           (Run.metadata_of Run.widget_c) Run.widgets Run.widgets_gv "/backups/b1"
           "/backups/b1/owners" "/backups/b1/dependents" Run.no_transformers Run.fs1
           (Run.fs_of (Run.write_widget Run.widget_c))).
  - reflexivity.
  - vm_compute; reflexivity.
  - vm_compute; reflexivity.
  - reflexivity.
  - vm_compute; reflexivity.
Defined.

(** The widget [b], with an owner reference, goes to [dependents/]. *)
Lemma owned_widget_goes_to_dependents :
  snd <$> Run.value_of (Run.write_widget Run.widget_b) = Some None
  ∧ is_Some (Run.fs_of (Run.write_widget Run.widget_b)
             !! "/backups/b1/dependents/widgets.example.com#v1/b.json")
  ∧ Run.fs_of (Run.write_widget Run.widget_b)
    !! "/backups/b1/owners/widgets.example.com#v1/b.json" = None.
Proof.
  repeat split; try (vm_compute; reflexivity). vm_compute. eauto.
Qed.

(** C3, counterexample. For the filter [^(pods|services)$] over pods,
    services and secrets, the kinds written back, and marshalled into
    [filters.json], are pods and services, although [skipBackup]
    excludes pods. *)
Lemma excluded_pods_are_written_back :
  skipBackup (Run.resource "pods" EmptyString true) = true
  ∧ map v1.Kinds <$> (fst <$> Run.value_of
                        (Run.gather (Run.core_handler [Run.pods_or_services])
                           [Run.pods_or_services]))
    = Some [["pods"; "services"]]
  ∧ ["pods"; "services"] ≠ ["services"]
  ∧ Run.value_of
      (OnBackupChange (Run.core_handler [Run.pods_or_services]) Run.backup Run.fs0)
    = Some (Run.backup, None)
  ∧ Run.fs_of (OnBackupChange (Run.core_handler [Run.pods_or_services]) Run.backup Run.fs0)
    !! "/backups/b1/filters.json"
    = Some (File (json.Marshal
                    (MFilters [v1.set_Kinds ["pods"; "services"] Run.pods_or_services])).1).
Proof.
  repeat split; try (vm_compute; reflexivity). discriminate.
Qed.

Lemma realized_kinds_are_resolved_names_witness :
  Run.gather (Run.core_handler [Run.pods_or_services]) [Run.pods_or_services]
  = Done (([v1.set_Kinds ["pods"; "services"] Run.pods_or_services], None),
          Run.fs_of (Run.gather (Run.core_handler [Run.pods_or_services])
                       [Run.pods_or_services]))
  ∧ [Run.pods_or_services] !! 0%nat = Some Run.pods_or_services
  ∧ v1.Kinds Run.pods_or_services = []
  ∧ ∃ resourceList,
      resolve (Run.core_handler [Run.pods_or_services]) Run.pods_or_services
      = (resourceList, None)
      ∧ [v1.set_Kinds ["pods"; "services"] Run.pods_or_services] !! 0%nat
        = Some (v1.set_Kinds (map k8sv1.Name resourceList) Run.pods_or_services).
Proof.
  split; [vm_compute; reflexivity|]. split; [reflexivity|]. split; [reflexivity|].
  apply (realized_kinds_are_resolved_names (Run.core_handler [Run.pods_or_services])
           [Run.pods_or_services]
           [v1.set_Kinds ["pods"; "services"] Run.pods_or_services]
           "/backups/b1" "/backups/b1/owners" "/backups/b1/dependents"
           Run.no_transformers Run.fs1
           (Run.fs_of (Run.gather (Run.core_handler [Run.pods_or_services])
                         [Run.pods_or_services]))).
  - vm_compute; reflexivity.
  - reflexivity.
  - reflexivity.
Defined.

(** C4. The namespace pattern [^kube-] matches the service [dns] of
    [kube-system], and the copy of the filter inside
    [gatherObjectsForResource] gets that namespace; the run succeeds,
    and the filter marshalled into [filters.json] has no namespace. *)
Theorem matched_namespaces_are_not_persisted :
  (∃ selected filter',
     filterObjects Run.services Run.kube_services [Run.web; Run.dns]
     = Done (selected, filter', None)
     ∧ selected = [1%nat]
     ∧ v1.Namespaces filter' = ["kube-system"])
  ∧ Run.value_of (OnBackupChange (Run.core_handler [Run.kube_services]) Run.backup Run.fs0)
    = Some (Run.backup, None)
  ∧ Run.fs_of (OnBackupChange (Run.core_handler [Run.kube_services]) Run.backup Run.fs0)
    !! "/backups/b1/filters.json"
    = Some (File (json.Marshal
                    (MFilters [v1.set_Kinds ["services"] Run.kube_services])).1)
  ∧ v1.Namespaces (v1.set_Kinds ["services"] Run.kube_services) = [].
Proof.
  split; [|repeat split; vm_compute; reflexivity].
  eexists _, _. split; [vm_compute; reflexivity|]. by split.
Qed.




(** Over pods, services and secrets, [^(pods|services)$] resolves to
    pods and services. *)
Lemma gatherResourcesForGroupVersion_resolution_witness :
  discoveryClient (Run.core_handler []) (v1.ApiGroup Run.pods_or_services)
  = (Run.core_resources, None)
  ∧ gatherResourcesForGroupVersion (Run.core_handler []) Run.pods_or_services
    = ([Run.resource "pods" EmptyString true; Run.services], None)
  ∧ (v1.KindsRegex Run.pods_or_services ≠ "." →
     ∀ re, regexp_Compile (v1.KindsRegex Run.pods_or_services) = inr re →
       ∃ resolved,
         gatherResourcesForGroupVersion (Run.core_handler []) Run.pods_or_services
         = (resolved, None)
         ∧ resolved
           = List.filter (λ res, Regexp_MatchString re (k8sv1.Name res)) Run.core_resources
         ∧ ∀ res, res ∈ resolved ↔
                  res ∈ Run.core_resources ∧ Regexp_MatchString re (k8sv1.Name res) = true).
Proof.
  split; [vm_compute; reflexivity|]. split; [vm_compute; reflexivity|].
  apply (gatherResourcesForGroupVersion_resolution (Run.core_handler [])
           Run.pods_or_services Run.core_resources).
  vm_compute; reflexivity.
Defined.

(** C7, counterexample. The pattern [(] does not compile; over a group
    and version without resource types, resolution returns no type
    and no error. *)
Lemma malformed_pattern_unnoticed :
  regexp_Compile (v1.KindsRegex Run.malformed)
  = inl (regexp.syntax_error "missing closing )" "(")
  ∧ discoveryClient Run.empty_handler (v1.ApiGroup Run.malformed) = ([], None)
  ∧ gatherResourcesForGroupVersion Run.empty_handler Run.malformed = ([], None).
Proof. repeat split; vm_compute; reflexivity. Qed.

(** C8. Namespaces are not namespaced and carry no
    [metadata.namespace]: with [namespaceRegex] set, selection panics
    on the type assertion of line 221, and so does the run; without
    it, the same objects are selected without failure. *)
Theorem namespaceRegex_panics_on_cluster_scoped :
  k8sv1.Namespaced Run.namespaces = false
  ∧ namespaceOf Run.kube_system = None
  ∧ filterObjects Run.namespaces Run.kube_namespaces [Run.kube_system]
    = Panic "interface conversion: interface {} is not string"
  ∧ gatherObjectsForResource (Run.cluster_handler [Run.kube_namespaces]) Run.namespaces
      Run.core_gv Run.kube_namespaces "/backups/b1" "/backups/b1/owners"
      "/backups/b1/dependents" Run.no_transformers Run.fs1
    = Panic "interface conversion: interface {} is not string"
  ∧ OnBackupChange (Run.cluster_handler [Run.kube_namespaces]) Run.backup Run.fs0
    = Panic "interface conversion: interface {} is not string"
  ∧ filterObjects Run.namespaces
      (Run.filter "v1" "^namespaces$" EmptyString EmptyString) [Run.kube_system]
    = Done ([0%nat], Run.filter "v1" "^namespaces$" EmptyString EmptyString, None).
Proof. repeat split; vm_compute; reflexivity. Qed.

(** The metadata of the service [web], with a uid and a resource
    version. *)
Lemma sanitize_idempotent_witness :
  sanitize (Run.metadata_of Run.web)
  = Done (list_to_map [ ("name", Str "web"); ("namespace", Str "default");
                        ("labels", MapStr {[ "original-uid" := "abc-123" ]}) ],
          "web")
  ∧ sanitize (list_to_map [ ("name", Str "web"); ("namespace", Str "default");
                            ("labels", MapStr {[ "original-uid" := "abc-123" ]}) ])
    = Done (list_to_map [ ("name", Str "web"); ("namespace", Str "default");
                          ("labels", MapStr {[ "original-uid" := "abc-123" ]}) ],
            "web").
Proof.
  split; [vm_compute; reflexivity|].
  apply (sanitize_idempotent (Run.metadata_of Run.web)).
  vm_compute; reflexivity.
Defined.

(** The selector for the exact name [web]. *)
Lemma fieldSelector_trailing_comma_witness :
  (v1.ResourceNames Run.web_by_name ≠ []
   ∨ (k8sv1.Namespaced Run.services = true ∧ v1.Namespaces Run.web_by_name ≠ []))
  ∧ fieldSelector Run.services Run.web_by_name = "metadata.name=web,"
  ∧ GoString.HasSuffix (fieldSelector Run.services Run.web_by_name) ",".
Proof.
  split; [by left|]. split; [reflexivity|].
  apply (fieldSelector_trailing_comma (Run.core_handler []) Run.services Run.core_gv
           Run.web_by_name "/backups/b1" "/backups/b1/owners" "/backups/b1/dependents"
           Run.no_transformers Run.fs1 Run.forbidden).
  by left.
Defined.

End Runs.

(** * Further properties of the controller *)

(** ** The tree only grows *)

Lemma grows_refl (fs : FS) : grows fs fs.
Proof. by intros key. Qed.

Lemma grows_trans (fs1 fs2 fs3 : FS) : grows fs1 fs2 → grows fs2 fs3 → grows fs1 fs3.
Proof.
  intros H12 H23 key. destruct (H12 key) as [Hd Hf], (H23 key) as [Hd' Hf']. split; auto.
Qed.

Lemma grows_insert_Dir (fs : FS) (key : string) :
  fs !! key = None → grows fs (<[key := Dir]> fs).
Proof.
  intros Hfree k. unfold is_file.
  destruct (decide (key = k)) as [<-|Hne].
  - rewrite Hfree. split; [done|]. by intros [? ?].
  - by rewrite lookup_insert_ne.
Qed.

Lemma grows_insert_File (fs : FS) (key data : string) :
  fs !! key ≠ Some Dir → grows fs (<[key := File data]> fs).
Proof.
  intros Hnodir k. unfold is_file.
  destruct (decide (key = k)) as [<-|Hne].
  - rewrite lookup_insert_eq. split; [done|]. eauto.
  - by rewrite lookup_insert_ne.
Qed.

Lemma Grows_ret {A} (a : A) : Grows (mret a).
Proof. intros fs a' fs' Hm. injection Hm as <- <-. apply grows_refl. Qed.

Lemma Grows_lift {A} (r : Res A) : Grows (lift r).
Proof. intros fs a fs' Hm. destruct r; [|done]. injection Hm as <- <-. apply grows_refl. Qed.

Lemma Grows_bind {A B} (m : M A) (k : A → M B) :
  Grows m → (∀ a, Grows (k a)) → Grows (m ≫= k).
Proof.
  intros Hm Hk fs b fs' Hrun. unfold mbind, M_mbind in Hrun.
  destruct (m fs) as [[a fs1]|msg] eqn:Hm1; [|done].
  eapply grows_trans; [by eapply Hm|by eapply Hk].
Qed.

Lemma Grows_Stat (name : string) : Grows (os.Stat name).
Proof.
  intros fs a fs' Hm. unfold os.Stat in Hm.
  destruct (fs !! filepath.Clean name) as [[|data]|];
    injection Hm as <- <-; apply grows_refl.
Qed.

Lemma Grows_Mkdir (name : string) : Grows (os.Mkdir name).
Proof.
  intros fs a fs' Hm. unfold os.Mkdir in Hm.
  destruct (fs !! filepath.Clean name) as [n|] eqn:Hkey.
  { injection Hm as <- <-. apply grows_refl. }
  destruct (os.parent_error fs "mkdir" name); injection Hm as <- <-.
  - apply grows_refl.
  - by apply grows_insert_Dir.
Qed.

Lemma Grows_Create (name : string) : Grows (os.Create name).
Proof.
  intros fs a fs' Hm. unfold os.Create in Hm.
  destruct (fs !! filepath.Clean name) as [[|data]|] eqn:Hkey.
  - injection Hm as <- <-. apply grows_refl.
  - destruct (os.parent_error fs "open" name); injection Hm as <- <-.
    + apply grows_refl.
    + apply grows_insert_File. by rewrite Hkey.
  - destruct (os.parent_error fs "open" name); injection Hm as <- <-.
    + apply grows_refl.
    + apply grows_insert_File. by rewrite Hkey.
Qed.

Lemma Grows_Write (f : os.file) (b : string) : Grows (os.Write f b).
Proof.
  intros fs a fs' Hm. unfold os.Write in Hm.
  destruct (fs !! os.path f) as [[|data]|] eqn:Hkey; injection Hm as <- <-.
  - apply grows_refl.
  - apply grows_insert_File. by rewrite Hkey.
  - apply grows_refl.
Qed.

Lemma Grows_Close (f : os.file) : Grows (os.Close f).
Proof. apply Grows_ret. Qed.

Create HintDb grows discriminated.
#[export] Hint Resolve Grows_ret Grows_lift Grows_Stat Grows_Mkdir Grows_Create
  Grows_Write Grows_Close : grows.

(** Splits a computation along its binds and branches, and closes the
    leaves with the facts of the database [grows]. *)
Ltac grows_steps :=
  repeat first
    [ apply Grows_bind; [|intros ?]
    | match goal with
      | |- Grows (match ?x with _ => _ end) => destruct x
      end
    | solve [auto with grows] ].

Section Behaviour.
Context `{imports : Imports}.

Lemma Grows_createResourceDir (path : string) : Grows (createResourceDir path).
Proof. unfold createResourceDir. grows_steps. Qed.

Lemma Grows_writeToBackup (resource : Object) (backupPath filename : string)
    (transformer : option Transformer) (aad : string) :
  Grows (writeToBackup resource backupPath filename transformer aad).
Proof. unfold writeToBackup. grows_steps. Qed.

Lemma Grows_writeUnder (resourcePath : string) (resource : Object) (objName : string)
    (transformer : option Transformer) (aad : string) :
  Grows (writeUnder resourcePath resource objName transformer aad).
Proof.
  unfold writeUnder.
  pose proof Grows_createResourceDir. pose proof Grows_writeToBackup. grows_steps.
Qed.

Lemma Grows_writeBackupObject (store : list Object) (i : nat) (res : k8sv1.APIResource)
    (gv : schema.GroupVersion) (backupPath ownerDirPath dependentDirPath : string)
    (transformerMap : TransformerMap) :
  Grows (writeBackupObject store i res gv backupPath ownerDirPath dependentDirPath
           transformerMap).
Proof.
  unfold writeBackupObject. pose proof Grows_writeUnder. grows_steps.
Qed.

Lemma Grows_writeBackupObjects_loop (resObjects : list nat) (res : k8sv1.APIResource)
    (gv : schema.GroupVersion) (backupPath ownerDirPath dependentDirPath : string)
    (transformerMap : TransformerMap) :
  ∀ store, Grows (writeBackupObjects_loop store resObjects res gv backupPath ownerDirPath
                    dependentDirPath transformerMap).
Proof.
  induction resObjects as [|i resObjects IH]; intros store; cbn [writeBackupObjects_loop].
  - apply Grows_ret.
  - pose proof Grows_writeBackupObject. grows_steps.
Qed.

Lemma Grows_gatherObjectsForResource (h : handler) (res : k8sv1.APIResource)
    (gv : schema.GroupVersion) (filter : v1.BackupFilter)
    (backupPath ownerDirPath dependentDirPath : string) (transformerMap : TransformerMap) :
  Grows (gatherObjectsForResource h res gv filter backupPath ownerDirPath dependentDirPath
           transformerMap).
Proof.
  unfold gatherObjectsForResource, writeBackupObjects.
  pose proof Grows_writeBackupObjects_loop. grows_steps.
Qed.

Lemma Grows_gatherResources_types (h : handler) (resourceList : list k8sv1.APIResource)
    (gv : schema.GroupVersion) (filter : v1.BackupFilter)
    (backupPath ownerDirPath dependentDirPath : string) (transformerMap : TransformerMap) :
  Grows (gatherResources_types h resourceList gv filter backupPath ownerDirPath
           dependentDirPath transformerMap).
Proof.
  induction resourceList as [|res resourceList IH]; cbn [gatherResources_types].
  - apply Grows_ret.
  - pose proof Grows_gatherObjectsForResource. grows_steps.
Qed.

Lemma Grows_gatherResources_loop (h : handler) (pending : list v1.BackupFilter)
    (backupPath ownerDirPath dependentDirPath : string) (transformerMap : TransformerMap) :
  ∀ ind filters,
    Grows (gatherResources_loop h pending ind filters backupPath ownerDirPath
             dependentDirPath transformerMap).
Proof.
  induction pending as [|filter pending IH]; intros ind filters;
    cbn [gatherResources_loop].
  - apply Grows_ret.
  - pose proof Grows_gatherResources_types. grows_steps.
Qed.

Lemma Grows_gatherResources (h : handler) (filters : list v1.BackupFilter)
    (backupPath ownerDirPath dependentDirPath : string) (transformerMap : TransformerMap) :
  Grows (gatherResources h filters backupPath ownerDirPath dependentDirPath
           transformerMap).
Proof. apply Grows_gatherResources_loop. Qed.

Lemma Grows_OnBackupChange (h : handler) (backup : v1.Backup) :
  Grows (OnBackupChange h backup).
Proof.
  unfold OnBackupChange. pose proof Grows_gatherResources. grows_steps.
Qed.

(** X1. Whatever a run of [OnBackupChange] returns, the tree it leaves
    has every directory and every file of the tree it started from:
    the controller removes nothing, and never puts a file where a
    directory was or a directory where a file was. *)
Theorem OnBackupChange_grows_tree (h : handler) (backup : v1.Backup)
    (result : v1.Backup * error) (fs fs' : FS) :
  OnBackupChange h backup fs = Done (result, fs') →
  ∀ key, (fs !! key = Some Dir → fs' !! key = Some Dir)
         ∧ ((∃ data, fs !! key = Some (File data)) → ∃ data', fs' !! key = Some (File data')).
Proof. intros Hrun. by apply (Grows_OnBackupChange h backup fs result fs'). Qed.

Lemma bind_Done {A B} (m : M A) (k : A → M B) (fs fs' : FS) (b : B) :
  (m ≫= k) fs = Done (b, fs') →
  ∃ a fs1, m fs = Done (a, fs1) ∧ k a fs1 = Done (b, fs').
Proof.
  unfold mbind, M_mbind. intros Hrun.
  destruct (m fs) as [[a fs1]|msg]; [|done]. eauto.
Qed.

(** X2. A trigger for a destination whose root directory the run could
    create leaves that directory behind whatever the run then returns,
    error included; triggered again on the tree it left, the controller
    returns no error and does nothing, whatever the catalog says. *)
Theorem OnBackupChange_again_is_noop (h h' : handler) (backup : v1.Backup)
    (result : v1.Backup * error) (fs fs' : FS) :
  fs !! filepath.Clean (v1.Local backup) = None →
  fs !! filepath.Dir (filepath.Clean (v1.Local backup)) = Some Dir →
  OnBackupChange h backup fs = Done (result, fs') →
  fs' !! filepath.Clean (v1.Local backup) = Some Dir
  ∧ OnBackupChange h' backup fs' = Done ((backup, None), fs').
Proof.
  intros Hfree Hparent Hrun.
  assert (fs' !! filepath.Clean (v1.Local backup) = Some Dir) as Hroot.
  { unfold OnBackupChange in Hrun.
    apply bind_Done in Hrun as (stat & fs0 & Hstat & Hrun).
    unfold os.Stat in Hstat. rewrite Hfree in Hstat. injection Hstat as <- <-.
    cbn in Hrun.
    apply bind_Done in Hrun as (err & fs1 & Hmkdir & Hrun).
    unfold os.Mkdir, os.parent_error in Hmkdir. rewrite Hfree, Hparent in Hmkdir.
    injection Hmkdir as <- <-.
    match type of Hrun with
    | ?m ?fs1 = _ =>
        assert (Grows m) as Hgrows
          by (pose proof Grows_gatherResources; grows_steps)
    end.
    apply Hgrows in Hrun. apply Hrun. by rewrite lookup_insert_eq. }
  split; [done|].
  unfold OnBackupChange, os.Stat. unfold mbind at 1. unfold M_mbind. by rewrite Hroot.
Qed.

(** X3. When the destination is a regular file, the run returns the
    error of [os.Mkdir] wrapped as a directory creation error, consults
    neither the catalog nor the template, and leaves the tree as it
    is. *)
Theorem OnBackupChange_destination_is_file (h : handler) (backup : v1.Backup)
    (data : string) (fs : FS) :
  fs !! filepath.Clean (v1.Local backup) = Some (File data) →
  OnBackupChange h backup fs
  = Done ((backup,
           Some (Errorf "error creating temp dir: "
                   (PathError "mkdir" (v1.Local backup) EEXIST))), fs).
Proof.
  intros Hfile. unfold OnBackupChange.
  unfold mbind at 1. unfold M_mbind, os.Stat. rewrite Hfile. cbn.
  unfold mbind at 1. unfold M_mbind, os.Mkdir. by rewrite Hfile.
Qed.

(** ** Eligibility of a resource type *)

Lemma canListResource_true (verbs : list string) :
  canListResource verbs = true ↔ "list" ∈ verbs.
Proof.
  induction verbs as [|v verbs IH]; cbn.
  - split; [done|]. by intros ?%elem_of_nil.
  - rewrite elem_of_cons. case_bool_decide as Hv.
    + subst v. split; auto.
    + rewrite IH. split; [auto|]. intros [?|?]; [by subst|done].
Qed.

Lemma canUpdateResource_true (verbs : list string) :
  canUpdateResource verbs = true ↔ "update" ∈ verbs ∨ "patch" ∈ verbs.
Proof.
  induction verbs as [|v verbs IH]; cbn.
  - split; [done|]. by intros [?%elem_of_nil|?%elem_of_nil].
  - rewrite !elem_of_cons. repeat case_bool_decide; subst; cbn.
    + split; auto.
    + split; auto.
    + split; auto.
    + rewrite IH. split; [intros [?|?]; auto|].
      intros [[?|?]|[?|?]]; subst; try done; auto.
Qed.

(** X4. A resource type is handed to the selection exactly when it is
    not [pods], supports [list], and supports [update] or [patch]. *)
Theorem skipBackup_false_iff (res : k8sv1.APIResource) :
  skipBackup res = false
  ↔ k8sv1.Name res ≠ "pods"
    ∧ "list" ∈ k8sv1.Verbs res
    ∧ ("update" ∈ k8sv1.Verbs res ∨ "patch" ∈ k8sv1.Verbs res).
Proof.
  unfold skipBackup, avoidBackupResources.
  rewrite <- canListResource_true, <- canUpdateResource_true.
  destruct (decide (k8sv1.Name res = "pods")) as [Hpods|Hpods].
  - rewrite Hpods, lookup_singleton_eq. cbn. split; [done|]. by intros [? _].
  - rewrite lookup_singleton_ne by done. cbn.
    destruct (canListResource (k8sv1.Verbs res)), (canUpdateResource (k8sv1.Verbs res));
      cbn; split; try done; by intros (_ & ? & ?).
Qed.

(** X5. A list of resource types none of which is eligible is passed
    over: nothing is listed and the tree is left as it is. *)
Theorem ineligible_types_are_passed_over (h : handler)
    (resourceList : list k8sv1.APIResource) (gv : schema.GroupVersion)
    (filter : v1.BackupFilter) (backupPath ownerDirPath dependentDirPath : string)
    (transformerMap : TransformerMap) (fs : FS) :
  Forall (λ res, skipBackup res = true) resourceList →
  gatherResources_types h resourceList gv filter backupPath ownerDirPath dependentDirPath
    transformerMap fs = Done (None, fs).
Proof.
  induction 1 as [|res resourceList Hskip _ IH]; cbn [gatherResources_types]; [done|].
  by rewrite Hskip.
Qed.

(** ** Sanitization, field by field *)

(** X6. Sanitization returns exactly when [metadata.name] is a string
    and the uid is absent or null, or is a string while the labels are
    absent, null or a map; on any other metadata it panics. *)
Theorem sanitize_returns_iff (metadata : gmap string value) :
  (∃ result, sanitize metadata = Done result)
  ↔ (∃ name, index metadata "name" = Str name)
    ∧ (is_nil (index metadata "uid") = true
       ∨ ((∃ uid, index metadata "uid" = Str uid)
          ∧ (is_nil (index metadata "labels") = true
             ∨ ∃ labels, index metadata "labels" = MapIface labels))).
Proof.
  unfold sanitize. split.
  - intros [result Hs].
    destruct (index metadata "name") eqn:Hname; cbn in Hs; unfold_monad; try done.
    split; [eauto|].
    destruct (index metadata "uid") eqn:Huid; cbn in Hs; try done; [by left|].
    right. split; [eauto|].
    destruct (index metadata "labels") eqn:Hlabels; cbn in Hs; try done; eauto.
  - intros [[name Hname] Hrest]. rewrite Hname. cbn. unfold_monad.
    destruct Hrest as [Hnil|[[uid Huid] Hlabels]].
    + rewrite Hnil. cbn. eauto.
    + rewrite Huid. cbn.
      destruct Hlabels as [Hnil|[labels Hlabels]].
      * rewrite Hnil. eauto.
      * rewrite Hlabels. cbn. eauto.
Qed.

(** X7. The uid of an object is recorded before it is removed: after
    sanitization the metadata has no [uid], and its labels hold the uid
    under the reference label, in a new map when there were no labels
    and beside the labels there were otherwise. *)
Theorem sanitize_records_uid (metadata metadata' : gmap string value)
    (objName uid : string) :
  sanitize metadata = Done (metadata', objName) →
  index metadata "uid" = Str uid →
  metadata' !! "uid" = None
  ∧ ((is_nil (index metadata "labels") = true
      ∧ metadata' !! "labels"
        = Some (MapStr {[ common_OldUIDReferenceLabel := uid ]}))
     ∨ ∃ labels,
         index metadata "labels" = MapIface labels
         ∧ metadata' !! "labels"
           = Some (MapIface (<[common_OldUIDReferenceLabel := Str uid]> labels))).
Proof.
  unfold sanitize. intros Hs Huid.
  destruct (index metadata "name"); cbn in Hs; unfold_monad; try done.
  rewrite Huid in Hs. cbn in Hs.
  destruct (index metadata "labels") eqn:Hlabels; cbn in Hs; try done;
    injection Hs as <- <-.
  - split; [by rewrite lookup_strip|]. left. split; [done|].
    rewrite lookup_strip. by rewrite lookup_insert_eq.
  - split; [by rewrite lookup_strip|]. right. eexists. split; [done|].
    rewrite lookup_strip. by rewrite lookup_insert_eq.
Qed.

(** X8. Sanitization touches nothing but the labels and the four
    server-assigned fields: every other key of the metadata keeps its
    value, and without a uid the labels are kept too. *)
Theorem sanitize_keeps_other_keys (metadata metadata' : gmap string value)
    (objName : string) :
  sanitize metadata = Done (metadata', objName) →
  (∀ k, k ∉ volatile → k ≠ "labels" → metadata' !! k = metadata !! k)
  ∧ (is_nil (index metadata "uid") = true → metadata' !! "labels" = metadata !! "labels").
Proof.
  intros Hs. split.
  - intros k Hk Hlabels. by eapply sanitize_lookup.
  - intros Hnil. unfold sanitize in Hs.
    destruct (index metadata "name"); cbn in Hs; unfold_monad; try done.
    rewrite Hnil in Hs. cbn in Hs. injection Hs as <- <-.
    by rewrite lookup_strip.
Qed.

(** ** What a run does to the filters, and what it reads of them *)

(** X9. Whatever [gatherResources] returns, the filters it leaves are
    as many as before, and each is the filter it was, or, when its
    kinds were empty, that filter with kinds filled in: kinds given by
    the user are never overwritten, and no other field is changed. *)
Theorem gatherResources_changes_only_empty_kinds (h : handler)
    (filters filters' : list v1.BackupFilter)
    (backupPath ownerDirPath dependentDirPath : string) (transformerMap : TransformerMap)
    (err : error) (fs fs' : FS) :
  gatherResources h filters backupPath ownerDirPath dependentDirPath transformerMap fs
  = Done ((filters', err), fs') →
  List.length filters' = List.length filters
  ∧ ∀ ind filter,
      filters !! ind = Some filter →
      ∃ filter',
        filters' !! ind = Some filter'
        ∧ (filter' = filter
           ∨ (v1.Kinds filter = [] ∧ ∃ kinds, filter' = v1.set_Kinds kinds filter)).
Proof.
  unfold gatherResources. intros Hrun.
  apply gatherResources_loop_Done in Hrun as (k & -> & _); [|done].
  rewrite take_0. cbn [app]. split.
  - rewrite length_app, length_map, <- length_app. by rewrite take_drop.
  - intros ind filter Hind.
    destruct (decide (ind < k)%nat) as [Hlt|Hge].
    + exists (realized h filter). split.
      * rewrite lookup_app_l by
          (rewrite length_map, length_take; apply lookup_lt_Some in Hind; lia).
        rewrite list_lookup_fmap, lookup_take_lt by done. by rewrite Hind.
      * unfold realized. case_bool_decide as Hkinds; [|by left]. right.
        split; [|eauto]. by destruct (v1.Kinds filter).
    + exists filter. split; [|by left].
      assert (List.length (map (realized h) (take k filters)) = k) as Hlen.
      { rewrite length_map, length_take. apply lookup_lt_Some in Hind. lia. }
      rewrite lookup_app_r by lia. rewrite Hlen, lookup_drop.
      by replace (k + (ind - k))%nat with ind by lia.
Qed.

Lemma matchResources_reads (filter1 filter2 : v1.BackupFilter)
    (resources resourceList : list k8sv1.APIResource) :
  v1.KindsRegex filter1 = v1.KindsRegex filter2 →
  matchResources filter1 resources resourceList
  = matchResources filter2 resources resourceList.
Proof.
  intros Hregex. revert resourceList.
  induction resources as [|res resources IH]; intros resourceList; cbn; [done|].
  rewrite Hregex. destruct (regexp_MatchString _ _) as [matched [e|]]; [done|].
  destruct matched; cbn; apply IH.
Qed.

(** X10. Resolution reads two fields of a filter, the group and version
    and [kindsRegex]: filters that agree on them resolve to the same
    resource types, so that the kinds a user lists play no part in
    which types are gathered. *)
Theorem gatherResourcesForGroupVersion_reads (h : handler)
    (filter1 filter2 : v1.BackupFilter) :
  v1.ApiGroup filter1 = v1.ApiGroup filter2 →
  v1.KindsRegex filter1 = v1.KindsRegex filter2 →
  gatherResourcesForGroupVersion h filter1 = gatherResourcesForGroupVersion h filter2.
Proof.
  intros Hgroup Hregex. unfold gatherResourcesForGroupVersion.
  rewrite Hgroup, Hregex.
  destruct (discoveryClient h (v1.ApiGroup filter2)) as [resources [e|]]; [done|].
  case_bool_decide; [done|]. by apply matchResources_reads.
Qed.

(** X11. Gathering the objects of a resource type reads of the filter
    the exact names, the two patterns and, for a namespaced type only,
    the exact namespaces: filters that agree on these list, select and
    write the same. In particular the namespaces of a filter have no
    effect on a type that is not namespaced. *)
Theorem gatherObjectsForResource_reads (h : handler) (res : k8sv1.APIResource)
    (gv : schema.GroupVersion) (filter1 filter2 : v1.BackupFilter)
    (backupPath ownerDirPath dependentDirPath : string) (transformerMap : TransformerMap)
    (fs : FS) :
  v1.ResourceNames filter1 = v1.ResourceNames filter2 →
  v1.ResourceNameRegex filter1 = v1.ResourceNameRegex filter2 →
  v1.NamespaceRegex filter1 = v1.NamespaceRegex filter2 →
  (k8sv1.Namespaced res = true → v1.Namespaces filter1 = v1.Namespaces filter2) →
  gatherObjectsForResource h res gv filter1 backupPath ownerDirPath dependentDirPath
    transformerMap fs
  = gatherObjectsForResource h res gv filter2 backupPath ownerDirPath dependentDirPath
      transformerMap fs.
Proof.
  intros Hnames Hname Hns Hnss.
  assert (fieldSelector res filter1 = fieldSelector res filter2) as Hsel.
  { unfold fieldSelector. rewrite Hnames.
    destruct (k8sv1.Namespaced res); [|done]. by rewrite Hnss. }
  unfold gatherObjectsForResource. rewrite Hsel.
  destruct (dynamicClient h _ _) as [resObjects [e|]]; [done|].
  unfold filterObjects. rewrite Hname, Hns. unfold_monad.
  destruct (if bool_decide (v1.ResourceNameRegex filter2 ≠ EmptyString)
            then filterByName (v1.ResourceNameRegex filter2) resObjects 0 []
            else Done ([], None)) as [[byName [e|]]|msg]; cbn; try done.
  by destruct (if bool_decide (v1.NamespaceRegex filter2 ≠ EmptyString)
               then filterByNamespace (v1.NamespaceRegex filter2) resObjects 0 byName []
               else Done (byName, [], None)) as [[[selected namespaces] [e|]]|msg].
Qed.

(** ** Selection by one pattern *)

(** X12. With [resourceNameRegex] alone, the selection is the listed
    objects whose name matches, in listing order and each once; the
    namespace of an object is not read, so objects without one are
    selected like the others, and the filter is left as it is. *)
Theorem selection_by_name (res : k8sv1.APIResource) (filter : v1.BackupFilter)
    (items : list Object) (re : Regexp) :
  v1.NamespaceRegex filter = EmptyString →
  v1.ResourceNameRegex filter ≠ EmptyString →
  regexp_Compile (v1.ResourceNameRegex filter) = inr re →
  Forall (λ o, is_Some (nameOf o)) items →
  filterObjects res filter items
  = Done (matching (fieldMatches "name" re) items 0, filter, None)
  ∧ (∀ i, i ∈ matching (fieldMatches "name" re) items 0 ↔
          ∃ o, items !! i = Some o ∧ fieldMatches "name" re o = true)
  ∧ NoDup (matching (fieldMatches "name" re) items 0).
Proof.
  intros Hns Hname Hre Hitems. split; [|split].
  - unfold filterObjects.
    rewrite (bool_decide_true (v1.ResourceNameRegex filter ≠ EmptyString)) by done.
    rewrite (bool_decide_false (v1.NamespaceRegex filter ≠ EmptyString))
      by (by intros Hne).
    rewrite (bool_decide_false (v1.ResourceNameRegex filter = EmptyString)) by done.
    rewrite (filterByName_spec _ re) by done. unfold_monad. cbn.
    rewrite (bool_decide_false (0 < 0)%nat) by lia. by rewrite !andb_false_r.
  - intros i. apply elem_of_matching.
  - apply NoDup_ListNoDup, (NoDup_count_occ Nat.eq_dec). intros i.
    rewrite count_matching. destruct (decide _); [|lia].
    destruct (items !! _) as [o|]; [|lia]. destruct (fieldMatches "name" re o); lia.
Qed.


(** ** Directories and files *)


(** X15. The file of an object is created, or truncated, before the
    object is encoded: when encoding fails, [writeToBackup] returns
    that error and leaves an empty file, whatever the file held. *)
Theorem writeToBackup_failed_encoding_leaves_empty_file (resource : Object)
    (backupPath filename : string) (transformer : option Transformer) (aad : string)
    (bytes : string) (e : error_value) (fs : FS) :
  fs !! fileKey backupPath filename ≠ Some Dir →
  fs !! filepath.Dir (fileKey backupPath filename) = Some Dir →
  encode resource transformer aad = (bytes, Some e) →
  writeToBackup resource backupPath filename transformer aad fs
  = Done (Some e, <[fileKey backupPath filename := File EmptyString]> fs).
Proof.
  intros Hnodir Hparent Hencode.
  unfold writeToBackup, os.Create, os.parent_error. unfold_monad.
  fold (fileKey backupPath filename). rewrite Hparent, Hencode.
  by destruct (fs !! fileKey backupPath filename) as [[|data]|].
Qed.



Lemma encode_Done (resource : Object) (transformer : option Transformer)
    (aad data : string) :
  encode resource transformer aad = (data, None) →
  ∃ plain,
    json_Marshal (MObject resource) = (plain, None)
    ∧ match transformer with
      | None => data = plain
      | Some t =>
          ∃ sealed,
            TransformToStorage t plain aad = (sealed, None)
            ∧ json_Marshal (MBytes sealed) = (data, None)
      end.
Proof.
  unfold encode. intros Hencode.
  destruct (json_Marshal (MObject resource)) as [plain [e|]]; [done|].
  exists plain. split; [done|].
  destruct transformer as [t|]; [|by injection Hencode as <-].
  destruct (TransformToStorage t plain aad) as [sealed [e|]]; [done|].
  exists sealed. split; [done|].
  destruct (json_Marshal (MBytes sealed)) as [data' [e|]]; [done|].
  by injection Hencode as <-.
Qed.

(** X17. What the file of a written object holds: the marshalled
    sanitized object when its resource type has no transformer; when it
    has one, the marshalled result of transforming those bytes, with
    the bare name of the object as the additional authenticated data. *)
Theorem written_bytes (store store' : list Object) (i : nat)
    (resObj : Object) (metadata : gmap string value) (res : k8sv1.APIResource)
    (gv : schema.GroupVersion) (backupPath ownerDirPath dependentDirPath : string)
    (transformerMap : TransformerMap) (fs fs' : FS) :
  store !! i = Some resObj →
  metadataOf resObj = Some metadata →
  skipObject metadata = false →
  writeBackupObject store i res gv backupPath ownerDirPath dependentDirPath
    transformerMap fs = Done ((store', None), fs') →
  ∃ objName sanitized plain data,
    nameOf resObj = Some objName
    ∧ store' !! i = Some sanitized
    ∧ json_Marshal (MObject sanitized) = (plain, None)
    ∧ fs' !! fileKey
               (partitionPath (partitionOf metadata ownerDirPath dependentDirPath) res gv)
               objName
      = Some (File data)
    ∧ match transformerMap
              (schema.ParseGroupResource (k8sv1.Name res +:+ "." +:+ k8sv1.Group res))
      with
      | None => data = plain
      | Some t =>
          ∃ sealed,
            TransformToStorage t plain objName = (sealed, None)
            ∧ json_Marshal (MBytes sealed) = (data, None)
      end.
Proof.
  intros Hi Hmeta Hskip Hw.
  destruct (writeBackupObject_Done _ _ _ _ _ _ _ _ _ _ _ _ _ Hi Hmeta Hskip Hw)
    as (metadata' & objName & fsp & Hs & -> & _ & Hpart).
  apply writeUnder_Done in Hpart as (data & Hdata & Hfile & _ & _).
  apply encode_Done in Hdata as (plain & Hplain & Hsealed).
  exists objName, (<["metadata" := MapIface metadata']> resObj), plain, data.
  split; [|split; [|done]].
  - apply sanitize_Done in Hs as [Hname _].
    unfold nameOf, stringAt. rewrite Hmeta. cbn.
    unfold index in Hname. by destruct (metadata !! "name") as [[]|]; simplify_eq/=.
  - apply list_lookup_insert_eq. by eapply lookup_lt_Some.
Qed.

(** ** The loop over the selected objects *)

Lemma writeBackupObjects_loop_app (res : k8sv1.APIResource) (gv : schema.GroupVersion)
    (backupPath ownerDirPath dependentDirPath : string) (transformerMap : TransformerMap)
    (before after : list nat) :
  ∀ (store : list Object) (fs : FS),
    writeBackupObjects_loop store (before ++ after) res gv backupPath ownerDirPath
      dependentDirPath transformerMap fs
    = match writeBackupObjects_loop store before res gv backupPath ownerDirPath
              dependentDirPath transformerMap fs with
      | Done ((store1, None), fs1) =>
          writeBackupObjects_loop store1 after res gv backupPath ownerDirPath
            dependentDirPath transformerMap fs1
      | other => other
      end.
Proof.
  induction before as [|i before IH]; intros store fs; [done|].
  cbn [app writeBackupObjects_loop]. unfold_monad.
  destruct (writeBackupObject store i res gv backupPath ownerDirPath dependentDirPath
              transformerMap fs) as [[[store1 [e|]] fs1]|msg]; [done|apply IH|done].
Qed.

(** X18. The loop stops at the first object whose round returns an
    error: what the loop returns is what that round returned, after the
    rounds of the objects before it, and the objects after it are not
    visited. *)
Theorem writeBackupObjects_loop_stops_at_first_error (res : k8sv1.APIResource)
    (gv : schema.GroupVersion) (backupPath ownerDirPath dependentDirPath : string)
    (transformerMap : TransformerMap) (resObjects : list nat) :
  ∀ (store store' : list Object) (e : error_value) (fs fs' : FS),
    writeBackupObjects_loop store resObjects res gv backupPath ownerDirPath
      dependentDirPath transformerMap fs = Done ((store', Some e), fs') →
    ∃ before i after store1 fs1,
      resObjects = before ++ i :: after
      ∧ writeBackupObjects_loop store before res gv backupPath ownerDirPath
          dependentDirPath transformerMap fs = Done ((store1, None), fs1)
      ∧ writeBackupObject store1 i res gv backupPath ownerDirPath dependentDirPath
          transformerMap fs1 = Done ((store', Some e), fs').
Proof.
  induction resObjects as [|i resObjects IH]; intros store store' e fs fs' Hloop;
    [done|].
  cbn [writeBackupObjects_loop] in Hloop. unfold_monad.
  destruct (writeBackupObject store i res gv backupPath ownerDirPath dependentDirPath
              transformerMap fs) as [[[store1 [e1|]] fs1]|msg] eqn:Hbody; try done.
  - injection Hloop as <- <- <-. by exists [], i, resObjects, store, fs.
  - apply IH in Hloop as (before & j & after & store2 & fs2 & -> & Hbefore & Hj).
    exists (i :: before), j, after, store2, fs2. split; [done|]. split; [|done].
    cbn [writeBackupObjects_loop]. unfold_monad. by rewrite Hbody.
Qed.

(** X19. The file of the object the loop visits last holds that object:
    objects are filed under their name alone, so of several selected
    objects with one name and one partition, whatever their namespaces,
    the file keeps the last. *)
Theorem last_object_is_in_its_file (res : k8sv1.APIResource) (gv : schema.GroupVersion)
    (backupPath ownerDirPath dependentDirPath : string) (transformerMap : TransformerMap)
    (resObjects : list nat) (j : nat) (store store' : list Object) (fs fs' : FS)
    (sanitized : Object) (metadata' : gmap string value) :
  writeBackupObjects_loop store (resObjects ++ [j]) res gv backupPath ownerDirPath
    dependentDirPath transformerMap fs = Done ((store', None), fs') →
  store' !! j = Some sanitized →
  metadataOf sanitized = Some metadata' →
  skipObject metadata' = false →
  ∃ objName data,
    nameOf sanitized = Some objName
    ∧ encode sanitized
        (transformerMap
           (schema.ParseGroupResource (k8sv1.Name res +:+ "." +:+ k8sv1.Group res)))
        objName = (data, None)
    ∧ fs' !! fileKey
               (partitionPath (partitionOf metadata' ownerDirPath dependentDirPath) res gv)
               objName
      = Some (File data).
Proof.
  intros Hloop Hj Hmeta' Hskip'. rewrite writeBackupObjects_loop_app in Hloop.
  destruct (writeBackupObjects_loop store resObjects res gv backupPath ownerDirPath
              dependentDirPath transformerMap fs) as [[[store1 [e|]] fs1]|msg]; try done.
  cbn [writeBackupObjects_loop] in Hloop. unfold_monad.
  destruct (writeBackupObject store1 j res gv backupPath ownerDirPath dependentDirPath
              transformerMap fs1) as [[[store2 [e|]] fs2]|msg] eqn:Hbody; try done.
  injection Hloop as <- <-.
  destruct (store1 !! j) as [resObj1|] eqn:Hj1;
    [|by unfold writeBackupObject in Hbody; rewrite Hj1 in Hbody].
  destruct (metadataOf resObj1) as [metadata1|] eqn:Hmeta1.
  2:{ unfold writeBackupObject in Hbody. rewrite Hj1 in Hbody. unfold_monad.
      unfold metadataOf in Hmeta1. unfold index in Hbody.
      by destruct (resObj1 !! "metadata") as [[]|]. }
  destruct (skipObject metadata1) eqn:Hskip1.
  { rewrite (writeBackupObject_skipped store1 j resObj1 metadata1) in Hbody by done.
    injection Hbody as <- <-. rewrite Hj1 in Hj. injection Hj as <-.
    rewrite Hmeta1 in Hmeta'. injection Hmeta' as <-. by rewrite Hskip1 in Hskip'. }
  destruct (writeBackupObject_Done _ _ _ _ _ _ _ _ _ _ _ _ _ Hj1 Hmeta1 Hskip1 Hbody)
    as (metadata1' & objName & fsp & Hs & -> & _ & Hpart).
  rewrite list_lookup_insert_eq in Hj by (by eapply lookup_lt_Some).
  injection Hj as <-.
  destruct (sanitized_same resObj1 metadata1 metadata1' objName ownerDirPath
              dependentDirPath Hmeta1 Hs) as (Hmeta2 & _ & Hname & Hpartition).
  rewrite Hmeta2 in Hmeta'. injection Hmeta' as <-.
  apply writeUnder_Done in Hpart as (data & Hdata & Hfile & _ & _).
  exists objName, data. split; [|split; [done|by rewrite Hpartition]].
  rewrite Hname. apply sanitize_Done in Hs as [Hn _].
  unfold nameOf, stringAt. rewrite Hmeta1. cbn.
  unfold index in Hn. by destruct (metadata1 !! "name") as [[]|]; simplify_eq/=.
Qed.

(** ** The selector and the realized filter file *)

Lemma foldl_fragments (prefix : string) (names : list string) (start : string) :
  foldl (λ sel ns, sel +:+ (prefix +:+ ns +:+ ",")) start names
  = start +:+ String.concat EmptyString (map (λ ns, prefix +:+ ns +:+ ",") names).
Proof.
  revert start. induction names as [|ns names IH]; intros start; cbn [foldl map].
  - cbn. induction start as [|a start IHs]; [done|].
    change (String a start = String a (start +:+ EmptyString)). by rewrite <- IHs.
  - rewrite IH, append_assoc. f_equal.
    destruct names as [|ns' names]; [|done].
    cbn. set (fragment := prefix +:+ ns +:+ ",").
    induction fragment as [|a fragment IHf]; [done|].
    change (String a (fragment +:+ EmptyString) = String a fragment). by rewrite IHf.
Qed.

(** X20. The field selector is the concatenation of one fragment
    [metadata.name=<name>,] per exact name, followed, for a namespaced
    type only, by one fragment [metadata.namespace=<namespace>,] per
    exact namespace; it is empty when neither is given. *)
Theorem fieldSelector_fragments (res : k8sv1.APIResource) (filter : v1.BackupFilter) :
  fieldSelector res filter
  = String.concat EmptyString
      (map (λ ns, "metadata.name=" +:+ ns +:+ ",") (v1.ResourceNames filter))
    +:+ String.concat EmptyString
          (map (λ ns, "metadata.namespace=" +:+ ns +:+ ",")
             (if k8sv1.Namespaced res then v1.Namespaces filter else [])).
Proof.
  unfold fieldSelector.
  assert (∀ prefix names start,
    (if bool_decide (0 < List.length names)%nat
     then foldl (λ sel ns, sel +:+ (prefix +:+ ns +:+ ",")) start names
     else start)
    = start +:+ String.concat EmptyString (map (λ ns, prefix +:+ ns +:+ ",") names))
    as Hloop.
  { intros prefix names start. rewrite <- foldl_fragments.
    destruct names; [done|]. by rewrite bool_decide_true by (cbn; lia). }
  rewrite (Hloop "metadata.name=" (v1.ResourceNames filter) EmptyString).
  destruct (k8sv1.Namespaced res).
  - by rewrite (Hloop "metadata.namespace=").
  - cbn [map String.concat].
    set (names := String.concat _ _). clearbody names.
    induction names as [|a names IH]; [done|].
    change (String a names = String a (names +:+ EmptyString)). by rewrite <- IH.
Qed.

(** X21. A run that starts without its root directory and returns no
    error has written to [filters.json] the marshalled filters as
    [gatherResources] left them, whether [gatherResources] itself
    returned an error or not. *)
Theorem filters_file_holds_the_filters_as_left (h : handler) (backup : v1.Backup)
    (result : v1.Backup) (fs fs' : FS) :
  fs !! filepath.Clean (v1.Local backup) ≠ Some Dir →
  OnBackupChange h backup fs = Done ((result, None), fs') →
  ∃ config transformerMap template filters' gatherErr fs3 fs4 bytes,
    backupEncryptionConfigs h (v1.BackupEncryptionConfigNamespace backup)
      (v1.BackupEncryptionConfigName backup) = (config, None)
    ∧ common_GetEncryptionTransformers config = (transformerMap, None)
    ∧ backupTemplates h "default" (v1.BackupTemplateName backup) = (template, None)
    ∧ gatherResources h (v1.BackupFilters template) (v1.Local backup)
        (v1.Local backup +:+ "/owners") (v1.Local backup +:+ "/dependents")
        transformerMap fs3 = Done ((filters', gatherErr), fs4)
    ∧ json_Marshal (MFilters filters') = (bytes, None)
    ∧ fs' = <[filepath.Clean
                (filepath.Join [v1.Local backup; filepath.Base "filters.json"])
              := File bytes]> fs4.
Proof.
  intros Hnodir Hrun. unfold OnBackupChange in Hrun.
  apply bind_Done in Hrun as ([info err0] & fs0 & Hstat & Hrun).
  assert (is_nil_error err0 && os.IsDir info = false) as Hgo.
  { unfold os.Stat in Hstat.
    destruct (fs !! filepath.Clean (v1.Local backup)) as [[|d]|];
      [done|by injection Hstat as <- <- <-..]. }
  rewrite Hgo in Hrun. clear Hstat Hgo.
  apply bind_Done in Hrun as ([e|] & fs1 & _ & Hrun); [by injection Hrun|].
  apply bind_Done in Hrun as ([e|] & fs2 & _ & Hrun); [by injection Hrun|].
  apply bind_Done in Hrun as ([e|] & fs3 & _ & Hrun); [by injection Hrun|].
  destruct (backupEncryptionConfigs h _ _) as [config [e|]] eqn:Hconfig;
    [by injection Hrun|].
  destruct (common_GetEncryptionTransformers config) as [transformerMap [e|]]
    eqn:Htransformers; [by injection Hrun|].
  destruct (backupTemplates h _ _) as [template [e|]] eqn:Htemplate;
    [by injection Hrun|].
  apply bind_Done in Hrun as ([filters' gatherErr] & fs4 & Hgather & Hrun).
  destruct (json_Marshal (MFilters filters')) as [bytes [e|]] eqn:Hmarshal;
    [by injection Hrun|].
  apply bind_Done in Hrun as ([filterFile [e|]] & fs5 & Hcreate & Hrun);
    [by injection Hrun|].
  apply bind_Done in Hrun as ([e|] & fs6 & Hwrite & Hrun); [by injection Hrun|].
  injection Hrun as _ <-.
  exists config, transformerMap, template, filters', gatherErr, fs3, fs4, bytes.
  do 5 (split; [done|]).
  unfold os.Create in Hcreate. unfold os.Write in Hwrite.
  set (key := filepath.Clean (filepath.Join _)) in *.
  assert (fs5 = <[key := File EmptyString]> fs4 ∧ os.path filterFile = key) as [-> Hpath].
  { destruct (fs4 !! key) as [[|d]|]; [by simplify_eq|..];
      destruct (os.parent_error fs4 "open" _); by simplify_eq. }
  rewrite Hpath, lookup_insert_eq in Hwrite. injection Hwrite as <-.
  by rewrite insert_insert_eq.
Qed.

(** ** From the listing to the tree *)

(** X22. Without patterns, every listed object is selected: after a
    call of [gatherObjectsForResource] that returns no error, each
    listed object that is not finalizing without finalizers has its
    file in the tree, under its partition and its name. *)
Theorem listed_objects_are_in_the_tree (h : handler) (res : k8sv1.APIResource)
    (gv : schema.GroupVersion) (filter : v1.BackupFilter)
    (backupPath ownerDirPath dependentDirPath : string) (transformerMap : TransformerMap)
    (items : list Object) (fs fs' : FS) :
  v1.ResourceNameRegex filter = EmptyString →
  v1.NamespaceRegex filter = EmptyString →
  dynamicClient h (schema.WithResource gv (k8sv1.Name res)) (fieldSelector res filter)
  = (items, None) →
  gatherObjectsForResource h res gv filter backupPath ownerDirPath dependentDirPath
    transformerMap fs = Done (None, fs') →
  ∀ i resObj metadata,
    items !! i = Some resObj →
    metadataOf resObj = Some metadata →
    skipObject metadata = false →
    ∃ objName data,
      nameOf resObj = Some objName
      ∧ fs' !! fileKey
                 (partitionPath (partitionOf metadata ownerDirPath dependentDirPath) res gv)
                 objName
        = Some (File data).
Proof.
  intros Hname Hns Hlist Hrun i resObj metadata Hi Hmeta Hskip.
  unfold gatherObjectsForResource in Hrun. rewrite Hlist in Hrun.
  unfold filterObjects in Hrun. rewrite Hname, Hns in Hrun.
  rewrite (bool_decide_false (EmptyString ≠ EmptyString)) in Hrun by (by intros Hne).
  rewrite (bool_decide_true (EmptyString = EmptyString)) in Hrun by done.
  unfold writeBackupObjects in Hrun. unfold_monad. cbn in Hrun.
  destruct (writeBackupObjects_loop items (seq 0 (List.length items)) res gv backupPath
              ownerDirPath dependentDirPath transformerMap fs)
    as [[[store' err] fs'']|msg] eqn:Hloop; [|done].
  injection Hrun as -> ->.
  destruct (retained_objects_are_in_the_tree _ _ _ _ _ _ _ _ _ _ _ Hloop i resObj metadata)
    as (objName & Hobj & data & Hfile); try done.
  - apply elem_of_seq. apply lookup_lt_Some in Hi. lia.
  - by exists objName, data.
Qed.

End Behaviour.

(** ** The further properties on concrete runs *)

Section BehaviourRuns.
#[local] Existing Instance run_imports.

(** The run over pods, services and secrets keeps the two directories
    it started from. *)
Lemma OnBackupChange_grows_tree_witness :
  OnBackupChange (Run.core_handler [Run.pods_or_services]) Run.backup Run.fs0
  = Done ((Run.backup, None),
          Run.fs_of (OnBackupChange (Run.core_handler [Run.pods_or_services])
                       Run.backup Run.fs0))
  ∧ ∀ key,
      (Run.fs0 !! key = Some Dir →
       Run.fs_of (OnBackupChange (Run.core_handler [Run.pods_or_services])
                    Run.backup Run.fs0) !! key = Some Dir)
      ∧ ((∃ data, Run.fs0 !! key = Some (File data)) →
         ∃ data',
           Run.fs_of (OnBackupChange (Run.core_handler [Run.pods_or_services])
                        Run.backup Run.fs0) !! key = Some (File data')).
Proof.
  split; [vm_compute; reflexivity|].
  apply (OnBackupChange_grows_tree (Run.core_handler [Run.pods_or_services]) Run.backup
           (Run.backup, None) Run.fs0).
  vm_compute; reflexivity.
Defined.

(** A run that fails to read the encryption configuration leaves the
    root directory; the next trigger does nothing and reports success. *)
Lemma OnBackupChange_again_is_noop_witness :
  Run.fs0 !! filepath.Clean (v1.Local Run.backup) = None
  ∧ Run.fs0 !! filepath.Dir (filepath.Clean (v1.Local Run.backup)) = Some Dir
  ∧ OnBackupChange Run.unconfigured_handler Run.backup Run.fs0
    = Done ((Run.backup, Some (ErrorString "backupencryptionconfig not found")), Run.fs1)
  ∧ Run.fs1 !! filepath.Clean (v1.Local Run.backup) = Some Dir
  ∧ OnBackupChange (Run.core_handler [Run.everything]) Run.backup Run.fs1
    = Done ((Run.backup, None), Run.fs1).
Proof.
  split; [vm_compute; reflexivity|]. split; [vm_compute; reflexivity|].
  split; [vm_compute; reflexivity|].
  apply (OnBackupChange_again_is_noop Run.unconfigured_handler
           (Run.core_handler [Run.everything]) Run.backup
           (Run.backup, Some (ErrorString "backupencryptionconfig not found"))
           Run.fs0 Run.fs1);
    vm_compute; reflexivity.
Defined.

Lemma OnBackupChange_destination_is_file_witness :
  Run.fs_taken !! filepath.Clean (v1.Local Run.backup) = Some (File "notes")
  ∧ OnBackupChange (Run.core_handler [Run.everything]) Run.backup Run.fs_taken
    = Done ((Run.backup,
             Some (Errorf "error creating temp dir: "
                     (PathError "mkdir" (v1.Local Run.backup) EEXIST))), Run.fs_taken).
Proof.
  split; [vm_compute; reflexivity|].
  apply (OnBackupChange_destination_is_file (Run.core_handler [Run.everything])
           Run.backup "notes" Run.fs_taken).
  vm_compute; reflexivity.
Defined.

(** Pods, and a type that cannot be listed. *)
Lemma ineligible_types_are_passed_over_witness :
  Forall (λ res, skipBackup res = true)
    [Run.resource "pods" EmptyString true;
     {| k8sv1.Name := "bindings"; k8sv1.Group := EmptyString; k8sv1.Namespaced := true;
        k8sv1.Verbs := ["create"] |}]
  ∧ gatherResources_types (Run.core_handler [])
      [Run.resource "pods" EmptyString true;
       {| k8sv1.Name := "bindings"; k8sv1.Group := EmptyString; k8sv1.Namespaced := true;
          k8sv1.Verbs := ["create"] |}]
      Run.core_gv Run.everything "/backups/b1" "/backups/b1/owners"
      "/backups/b1/dependents" Run.no_transformers Run.fs1
    = Done (None, Run.fs1).
Proof.
  split; [repeat constructor|].
  apply (ineligible_types_are_passed_over (Run.core_handler [])).
  repeat constructor.
Defined.

(** The service [web] has the uid [abc-123] and no labels. *)
Lemma sanitize_records_uid_witness :
  sanitize (Run.metadata_of Run.web)
  = Done (list_to_map [ ("name", Str "web"); ("namespace", Str "default");
                        ("labels", MapStr {[ "original-uid" := "abc-123" ]}) ],
          "web")
  ∧ index (Run.metadata_of Run.web) "uid" = Str "abc-123"
  ∧ (list_to_map [ ("name", Str "web"); ("namespace", Str "default");
                   ("labels", MapStr {[ "original-uid" := "abc-123" ]}) ]
       : gmap string value) !! "uid" = None.
Proof.
  split; [vm_compute; reflexivity|]. split; [vm_compute; reflexivity|].
  apply (sanitize_records_uid (Run.metadata_of Run.web)
           (list_to_map [ ("name", Str "web"); ("namespace", Str "default");
                          ("labels", MapStr {[ "original-uid" := "abc-123" ]}) ])
           "web" "abc-123");
    vm_compute; reflexivity.
Defined.

Lemma sanitize_keeps_other_keys_witness :
  sanitize (Run.metadata_of Run.web)
  = Done (list_to_map [ ("name", Str "web"); ("namespace", Str "default");
                        ("labels", MapStr {[ "original-uid" := "abc-123" ]}) ],
          "web")
  ∧ ∀ k, k ∉ volatile → k ≠ "labels" →
         (list_to_map [ ("name", Str "web"); ("namespace", Str "default");
                        ("labels", MapStr {[ "original-uid" := "abc-123" ]}) ]
            : gmap string value) !! k
         = Run.metadata_of Run.web !! k.
Proof.
  split; [vm_compute; reflexivity|].
  apply (sanitize_keeps_other_keys (Run.metadata_of Run.web)
           (list_to_map [ ("name", Str "web"); ("namespace", Str "default");
                          ("labels", MapStr {[ "original-uid" := "abc-123" ]}) ])
           "web").
  vm_compute; reflexivity.
Defined.

(** Gathering everything when listing secrets is refused: the kinds of
    the filter are filled in, and that is all. *)
Lemma gatherResources_changes_only_empty_kinds_witness :
  Run.gather (Run.refusing_handler [Run.everything]) [Run.everything]
  = Done (([v1.set_Kinds ["pods"; "services"; "secrets"] Run.everything],
           Some Run.forbidden),
          Run.fs_of (Run.gather (Run.refusing_handler [Run.everything]) [Run.everything]))
  ∧ List.length [v1.set_Kinds ["pods"; "services"; "secrets"] Run.everything]
    = List.length [Run.everything].
Proof.
  split; [vm_compute; reflexivity|].
  apply (gatherResources_changes_only_empty_kinds (Run.refusing_handler [Run.everything])
           [Run.everything] [v1.set_Kinds ["pods"; "services"; "secrets"] Run.everything]
           "/backups/b1" "/backups/b1/owners" "/backups/b1/dependents"
           Run.no_transformers (Some Run.forbidden) Run.fs1
           (Run.fs_of (Run.gather (Run.refusing_handler [Run.everything])
                         [Run.everything]))).
  vm_compute; reflexivity.
Defined.

(** Listing the kind [secrets] in the filter changes nothing to what
    [^(pods|services)$] resolves to. *)
Lemma gatherResourcesForGroupVersion_reads_witness :
  v1.ApiGroup (v1.set_Kinds ["secrets"] Run.pods_or_services)
  = v1.ApiGroup Run.pods_or_services
  ∧ v1.KindsRegex (v1.set_Kinds ["secrets"] Run.pods_or_services)
    = v1.KindsRegex Run.pods_or_services
  ∧ gatherResourcesForGroupVersion (Run.core_handler [])
      (v1.set_Kinds ["secrets"] Run.pods_or_services)
    = gatherResourcesForGroupVersion (Run.core_handler []) Run.pods_or_services.
Proof.
  split; [reflexivity|]. split; [reflexivity|].
  apply (gatherResourcesForGroupVersion_reads (Run.core_handler [])
           (v1.set_Kinds ["secrets"] Run.pods_or_services) Run.pods_or_services);
    reflexivity.
Defined.

(** Namespaces are not namespaced: naming a namespace in the filter
    changes nothing to what is gathered of them. *)
Lemma gatherObjectsForResource_reads_witness :
  k8sv1.Namespaced Run.namespaces = false
  ∧ gatherObjectsForResource (Run.cluster_handler []) Run.namespaces Run.core_gv
      (v1.set_Namespaces ["kube-system"] Run.kube_by_name) "/backups/b1"
      "/backups/b1/owners" "/backups/b1/dependents" Run.no_transformers Run.fs1
    = gatherObjectsForResource (Run.cluster_handler []) Run.namespaces Run.core_gv
        Run.kube_by_name "/backups/b1" "/backups/b1/owners" "/backups/b1/dependents"
        Run.no_transformers Run.fs1.
Proof.
  split; [reflexivity|].
  apply (gatherObjectsForResource_reads (Run.cluster_handler []) Run.namespaces
           Run.core_gv (v1.set_Namespaces ["kube-system"] Run.kube_by_name)
           Run.kube_by_name);
    [reflexivity|reflexivity|reflexivity|discriminate].
Defined.

(** The namespace [kube-system], which has no [metadata.namespace], is
    selected by its name. *)
Lemma selection_by_name_witness :
  v1.NamespaceRegex Run.kube_by_name = EmptyString
  ∧ v1.ResourceNameRegex Run.kube_by_name ≠ EmptyString
  ∧ regexp_Compile (v1.ResourceNameRegex Run.kube_by_name) = inr Run.kube_re
  ∧ Forall (λ o, is_Some (nameOf o)) [Run.kube_system]
  ∧ namespaceOf Run.kube_system = None
  ∧ filterObjects Run.namespaces Run.kube_by_name [Run.kube_system]
    = Done (matching (fieldMatches "name" Run.kube_re) [Run.kube_system] 0,
            Run.kube_by_name, None)
  ∧ matching (fieldMatches "name" Run.kube_re) [Run.kube_system] 0 = [0%nat].
Proof.
  split; [reflexivity|]. split; [done|]. split; [vm_compute; reflexivity|].
  split; [repeat constructor; vm_compute; eauto|]. split; [vm_compute; reflexivity|].
  split; [|vm_compute; reflexivity].
  apply (@selection_by_name run_imports Run.namespaces Run.kube_by_name [Run.kube_system]
           Run.kube_re).
  - reflexivity.
  - done.
  - vm_compute; reflexivity.
  - repeat constructor; vm_compute; eauto.
Defined.



(** Writing the widget [c] with a transformer that has no key. *)
Lemma writeToBackup_failed_encoding_leaves_empty_file_witness :
  Run.fs1 !! fileKey "/backups/b1/owners" "c" ≠ Some Dir
  ∧ Run.fs1 !! filepath.Dir (fileKey "/backups/b1/owners" "c") = Some Dir
  ∧ (encode Run.widget_c (Some Run.keyless) "c").2
    = Some (Errorf "error converting resource to JSON: " (ErrorString "no key"))
  ∧ writeToBackup Run.widget_c "/backups/b1/owners" "c" (Some Run.keyless) "c" Run.fs1
    = Done (Some (Errorf "error converting resource to JSON: " (ErrorString "no key")),
            <[fileKey "/backups/b1/owners" "c" := File EmptyString]> Run.fs1).
Proof.
  split; [vm_compute; discriminate|]. split; [vm_compute; reflexivity|].
  split; [vm_compute; reflexivity|].
  apply (writeToBackup_failed_encoding_leaves_empty_file Run.widget_c "/backups/b1/owners"
           "c" (Some Run.keyless) "c"
           (encode Run.widget_c (Some Run.keyless) "c").1).
  - vm_compute; discriminate.
  - vm_compute; reflexivity.
  - vm_compute; reflexivity.
Defined.


(** The widget [c] written through a transformer: the file holds the
    marshalled transformation, made for the name [c]. *)
Lemma written_bytes_witness :
  [Run.widget_c] !! 0%nat = Some Run.widget_c
  ∧ metadataOf Run.widget_c = Some (Run.metadata_of Run.widget_c)
  ∧ skipObject (Run.metadata_of Run.widget_c) = false
  ∧ Run.widget_transformers Run.sealing
      (schema.ParseGroupResource
         (k8sv1.Name Run.widgets +:+ "." +:+ k8sv1.Group Run.widgets))
    = Some Run.sealing
  ∧ Run.fs_of
      (Run.write_one [Run.widget_c] 0 Run.widgets Run.widgets_gv
         (Run.widget_transformers Run.sealing) Run.fs1)
    !! "/backups/b1/owners/widgets.example.com#v1/c.json"
    = Some (File (json_Marshal
                    (MBytes ("sealed for c: "
                             +:+ (json_Marshal (MObject Run.widget_c)).1))).1)
  ∧ ∃ objName sanitized plain data,
      nameOf Run.widget_c = Some objName
      ∧ Run.store_of
          (Run.write_one [Run.widget_c] 0 Run.widgets Run.widgets_gv
             (Run.widget_transformers Run.sealing) Run.fs1) !! 0%nat = Some sanitized
      ∧ json_Marshal (MObject sanitized) = (plain, None)
      ∧ Run.fs_of
          (Run.write_one [Run.widget_c] 0 Run.widgets Run.widgets_gv
             (Run.widget_transformers Run.sealing) Run.fs1)
        !! fileKey
             (partitionPath
                (partitionOf (Run.metadata_of Run.widget_c) "/backups/b1/owners"
                   "/backups/b1/dependents") Run.widgets Run.widgets_gv) objName
        = Some (File data)
      ∧ match Run.widget_transformers Run.sealing
                (schema.ParseGroupResource
                   (k8sv1.Name Run.widgets +:+ "." +:+ k8sv1.Group Run.widgets))
        with
        | None => data = plain
        | Some t =>
            ∃ sealed,
              TransformToStorage t plain objName = (sealed, None)
              ∧ json_Marshal (MBytes sealed) = (data, None)
        end.
Proof.
  split; [reflexivity|]. split; [vm_compute; reflexivity|].
  split; [vm_compute; reflexivity|]. split; [vm_compute; reflexivity|].
  split; [vm_compute; reflexivity|].
  apply (written_bytes [Run.widget_c]
           (Run.store_of
              (Run.write_one [Run.widget_c] 0 Run.widgets Run.widgets_gv
                 (Run.widget_transformers Run.sealing) Run.fs1))
           0 Run.widget_c (Run.metadata_of Run.widget_c) Run.widgets Run.widgets_gv
           "/backups/b1" "/backups/b1/owners" "/backups/b1/dependents"
           (Run.widget_transformers Run.sealing) Run.fs1
           (Run.fs_of
              (Run.write_one [Run.widget_c] 0 Run.widgets Run.widgets_gv
                 (Run.widget_transformers Run.sealing) Run.fs1))).
  - reflexivity.
  - vm_compute; reflexivity.
  - vm_compute; reflexivity.
  - vm_compute; reflexivity.
Defined.

(** Without the directory [dependents/], the widget [c] is written and
    the round of the widget [a] fails; the widget [f] after it is not
    visited. *)
Lemma writeBackupObjects_loop_stops_at_first_error_witness :
  Run.error_of
    (Run.write_all [Run.widget_c; Run.widget_a; Run.widget_f] [0; 1; 2]%nat Run.widgets
       Run.widgets_gv Run.no_transformers Run.fs_owners_only)
  = Some (Errorf "error creating temp dir: "
            (PathError "mkdir" "/backups/b1/dependents/widgets.example.com#v1" ENOENT))
  ∧ Run.fs_of
      (Run.write_all [Run.widget_c; Run.widget_a; Run.widget_f] [0; 1; 2]%nat Run.widgets
         Run.widgets_gv Run.no_transformers Run.fs_owners_only)
    !! "/backups/b1/owners/widgets.example.com#v1/f.json" = None
  ∧ ∃ before i after store1 fs1,
      [0; 1; 2]%nat = before ++ i :: after
      ∧ Run.write_all [Run.widget_c; Run.widget_a; Run.widget_f] before Run.widgets
          Run.widgets_gv Run.no_transformers Run.fs_owners_only
        = Done ((store1, None), fs1)
      ∧ Run.write_one store1 i Run.widgets Run.widgets_gv Run.no_transformers fs1
        = Done ((Run.store_of
                   (Run.write_all [Run.widget_c; Run.widget_a; Run.widget_f]
                      [0; 1; 2]%nat Run.widgets Run.widgets_gv Run.no_transformers
                      Run.fs_owners_only),
                 Some (Errorf "error creating temp dir: "
                         (PathError "mkdir"
                            "/backups/b1/dependents/widgets.example.com#v1" ENOENT))),
                Run.fs_of
                  (Run.write_all [Run.widget_c; Run.widget_a; Run.widget_f]
                     [0; 1; 2]%nat Run.widgets Run.widgets_gv Run.no_transformers
                     Run.fs_owners_only)).
Proof.
  split; [vm_compute; reflexivity|]. split; [vm_compute; reflexivity|].
  apply (writeBackupObjects_loop_stops_at_first_error Run.widgets Run.widgets_gv
           "/backups/b1" "/backups/b1/owners" "/backups/b1/dependents"
           Run.no_transformers [0; 1; 2]%nat
           [Run.widget_c; Run.widget_a; Run.widget_f]).
  vm_compute; reflexivity.
Defined.

(** Two services named [web], of the namespaces [default] and [prod]:
    the file [web.json] holds the second. *)
Lemma last_object_is_in_its_file_witness :
  nameOf Run.web = Some "web" ∧ nameOf Run.web_prod = Some "web"
  ∧ Run.error_of
      (Run.write_all [Run.web; Run.web_prod] ([0%nat] ++ [1%nat]) Run.services Run.core_gv
         Run.no_transformers Run.fs1) = None
  ∧ Run.store_of
      (Run.write_all [Run.web; Run.web_prod] ([0%nat] ++ [1%nat]) Run.services Run.core_gv
         Run.no_transformers Run.fs1) !! 1%nat = Some Run.web_prod
  ∧ metadataOf Run.web_prod = Some (Run.metadata_of Run.web_prod)
  ∧ skipObject (Run.metadata_of Run.web_prod) = false
  ∧ Run.fs_of
      (Run.write_all [Run.web; Run.web_prod] ([0%nat] ++ [1%nat]) Run.services Run.core_gv
         Run.no_transformers Run.fs1)
    !! "/backups/b1/owners/services.#v1/web.json"
    = Some (File (json_Marshal (MObject Run.web_prod)).1)
  ∧ ∃ objName data,
      nameOf Run.web_prod = Some objName
      ∧ encode Run.web_prod
          (Run.no_transformers
             (schema.ParseGroupResource
                (k8sv1.Name Run.services +:+ "." +:+ k8sv1.Group Run.services)))
          objName = (data, None)
      ∧ Run.fs_of
          (Run.write_all [Run.web; Run.web_prod] ([0%nat] ++ [1%nat]) Run.services
             Run.core_gv Run.no_transformers Run.fs1)
        !! fileKey
             (partitionPath
                (partitionOf (Run.metadata_of Run.web_prod) "/backups/b1/owners"
                   "/backups/b1/dependents") Run.services Run.core_gv) objName
        = Some (File data).
Proof.
  split; [vm_compute; reflexivity|]. split; [vm_compute; reflexivity|].
  split; [vm_compute; reflexivity|]. split; [vm_compute; reflexivity|].
  split; [vm_compute; reflexivity|]. split; [vm_compute; reflexivity|].
  split; [vm_compute; reflexivity|].
  apply (last_object_is_in_its_file Run.services Run.core_gv "/backups/b1"
           "/backups/b1/owners" "/backups/b1/dependents" Run.no_transformers
           [0%nat] 1 [Run.web; Run.web_prod]
           (Run.store_of
              (Run.write_all [Run.web; Run.web_prod] ([0%nat] ++ [1%nat]) Run.services
                 Run.core_gv Run.no_transformers Run.fs1))
           Run.fs1
           (Run.fs_of
              (Run.write_all [Run.web; Run.web_prod] ([0%nat] ++ [1%nat]) Run.services
                 Run.core_gv Run.no_transformers Run.fs1))
           Run.web_prod (Run.metadata_of Run.web_prod)).
  - vm_compute; reflexivity.
  - vm_compute; reflexivity.
  - vm_compute; reflexivity.
  - vm_compute; reflexivity.
Defined.

(** Listing secrets is refused, the run returns no error, and
    [filters.json] holds the filter with the kinds gathered. *)
Lemma filters_file_holds_the_filters_as_left_witness :
  Run.fs0 !! filepath.Clean (v1.Local Run.backup) ≠ Some Dir
  ∧ OnBackupChange (Run.refusing_handler [Run.everything]) Run.backup Run.fs0
    = Done ((Run.backup, None),
            Run.fs_of
              (OnBackupChange (Run.refusing_handler [Run.everything]) Run.backup
                 Run.fs0))
  ∧ ∃ config transformerMap template filters' gatherErr fs3 fs4 bytes,
      backupEncryptionConfigs (Run.refusing_handler [Run.everything])
        (v1.BackupEncryptionConfigNamespace Run.backup)
        (v1.BackupEncryptionConfigName Run.backup) = (config, None)
      ∧ common_GetEncryptionTransformers config = (transformerMap, None)
      ∧ backupTemplates (Run.refusing_handler [Run.everything]) "default"
          (v1.BackupTemplateName Run.backup) = (template, None)
      ∧ gatherResources (Run.refusing_handler [Run.everything])
          (v1.BackupFilters template) (v1.Local Run.backup)
          (v1.Local Run.backup +:+ "/owners") (v1.Local Run.backup +:+ "/dependents")
          transformerMap fs3 = Done ((filters', gatherErr), fs4)
      ∧ json_Marshal (MFilters filters') = (bytes, None)
      ∧ Run.fs_of
          (OnBackupChange (Run.refusing_handler [Run.everything]) Run.backup Run.fs0)
        = <[filepath.Clean
              (filepath.Join [v1.Local Run.backup; filepath.Base "filters.json"])
            := File bytes]> fs4.
Proof.
  split; [vm_compute; discriminate|]. split; [vm_compute; reflexivity|].
  apply (@filters_file_holds_the_filters_as_left run_imports
           (Run.refusing_handler [Run.everything]) Run.backup Run.backup Run.fs0).
  - vm_compute; discriminate.
  - vm_compute; reflexivity.
Defined.

(** The body is run on the objects listed for the widgets, without
    patterns: [c] and [f] are in the tree, under [owners/]. *)
Lemma listed_objects_are_in_the_tree_witness :
  dynamicClient Run.widget_handler (schema.WithResource Run.widgets_gv "widgets")
    (fieldSelector Run.widgets Run.all_widgets)
  = ([Run.widget_c; Run.widget_e; Run.widget_f], None)
  ∧ gatherObjectsForResource Run.widget_handler Run.widgets Run.widgets_gv
      Run.all_widgets "/backups/b1" "/backups/b1/owners" "/backups/b1/dependents"
      Run.no_transformers Run.fs1
    = Done (None,
            Run.fs_of
              (gatherObjectsForResource Run.widget_handler Run.widgets Run.widgets_gv
                 Run.all_widgets "/backups/b1" "/backups/b1/owners"
                 "/backups/b1/dependents" Run.no_transformers Run.fs1))
  ∧ [Run.widget_c; Run.widget_e; Run.widget_f] !! 2%nat = Some Run.widget_f
  ∧ metadataOf Run.widget_f = Some (Run.metadata_of Run.widget_f)
  ∧ skipObject (Run.metadata_of Run.widget_f) = false
  ∧ ∃ objName data,
      nameOf Run.widget_f = Some objName
      ∧ Run.fs_of
          (gatherObjectsForResource Run.widget_handler Run.widgets Run.widgets_gv
             Run.all_widgets "/backups/b1" "/backups/b1/owners" "/backups/b1/dependents"
             Run.no_transformers Run.fs1)
        !! fileKey
             (partitionPath
                (partitionOf (Run.metadata_of Run.widget_f) "/backups/b1/owners"
                   "/backups/b1/dependents") Run.widgets Run.widgets_gv) objName
        = Some (File data).
Proof.
  split; [vm_compute; reflexivity|]. split; [vm_compute; reflexivity|].
  split; [reflexivity|]. split; [vm_compute; reflexivity|].
  split; [vm_compute; reflexivity|].
  apply (listed_objects_are_in_the_tree Run.widget_handler Run.widgets Run.widgets_gv
           Run.all_widgets "/backups/b1" "/backups/b1/owners" "/backups/b1/dependents"
           Run.no_transformers [Run.widget_c; Run.widget_e; Run.widget_f] Run.fs1
           (Run.fs_of
              (gatherObjectsForResource Run.widget_handler Run.widgets Run.widgets_gv
                 Run.all_widgets "/backups/b1" "/backups/b1/owners"
                 "/backups/b1/dependents" Run.no_transformers Run.fs1))
           eq_refl eq_refl) with (i := 2%nat).
  - vm_compute; reflexivity.
  - vm_compute; reflexivity.
  - reflexivity.
  - vm_compute; reflexivity.
  - vm_compute; reflexivity.
Defined.

(** The namespace [kube-system] has no [metadata.namespace]. *)
Lemma filterObjects_panics_without_namespace_witness :
  v1.ResourceNameRegex Run.kube_namespaces = EmptyString
  ∧ v1.NamespaceRegex Run.kube_namespaces ≠ EmptyString
  ∧ metadataOf Run.kube_system = Some (Run.metadata_of Run.kube_system)
  ∧ Run.metadata_of Run.kube_system !! "namespace" = None
  ∧ filterObjects Run.namespaces Run.kube_namespaces [Run.kube_system]
    = Panic "interface conversion: interface {} is not string".
Proof.
  split; [reflexivity|]. split; [done|]. split; [vm_compute; reflexivity|].
  split; [vm_compute; reflexivity|].
  apply (filterObjects_panics_without_namespace Run.namespaces Run.kube_namespaces
           Run.kube_system [] (Run.metadata_of Run.kube_system)).
  - reflexivity.
  - done.
  - vm_compute; reflexivity.
  - vm_compute; reflexivity.
Defined.

End BehaviourRuns.
